(** * Users and books back end: controllers over a document store

    A shallow embedding of
      - [src/api/components/users/users-controller.js],
      - [src/api/components/books/books-controller.js],
      - [src/api/components/books/books-service.js],
      - [src/api/components/books/books-repository.js],
    followed by the properties of the account life cycle (registration,
    login, update, change of password) and of the paginated book listing.

    An [async] function is a computation over the state of the outside
    world that either resolves with a value or rejects with an error; a
    handler resolves after it has answered through [response] or handed an
    error to [next]. One request is followed at a time. *)

From Stdlib Require Import SpecFloat.
From stdpp Require Import base option list strings gmap pretty.
From Stdlib Require Import ZArith Ascii Lia.

Set Warnings "-register-all".

Local Open Scope Z_scope.
Local Open Scope string_scope.

(** ** Values of the JavaScript side *)

Module Js.

(** What a field of a parsed request can hold. A character of a [string]
    stands for one UTF-16 code unit, so that [String.length] is the
    [length] property. Numbers are IEEE 754 doubles. Arrays are held by
    reference in the source; the only operations applied to them here are
    truthiness, [length] and [!==] against another freshly parsed value.
    Object-valued fields are not part of the model. *)
Inductive Val : Type :=
| Undefined
| Null
| Bool (b : bool)
| Num (x : spec_float)
| Str (s : string)
| Arr (elements : list Val).

(** [ToBoolean]: what [!v] and [if (v)] look at. *)
Definition truthy (v : Val) : bool :=
  match v with
  | Undefined | Null => false
  | Bool b => b
  | Num (S754_zero _) | Num S754_nan => false
  | Num _ => true
  | Str s => negb (String.eqb s EmptyString)
  | Arr _ => true
  end.

(** Equality of two values component by component: doubles by [==] on
    doubles, strings by their code units, arrays element by element. *)
Fixpoint same_value (a b : Val) {struct a} : bool :=
  match a, b with
  | Undefined, Undefined => true
  | Null, Null => true
  | Bool x, Bool y => Bool.eqb x y
  | Num x, Num y => SFeqb x y
  | Str x, Str y => String.eqb x y
  | Arr xs, Arr ys =>
      (fix all2 (l : list Val) (r : list Val) {struct l} : bool :=
         match l, r with
         | [], [] => true
         | x :: l', y :: r' => same_value x y && all2 l' r'
         | _, _ => false
         end) xs ys
  | _, _ => false
  end.

(** [a === b] for two values that come from different places (two fields
    of one parsed body, or a field and a stored document): primitives are
    compared by value, an array is only ever identical to itself. *)
Definition strict_eq (a b : Val) : bool :=
  match a, b with
  | Arr _, _ | _, Arr _ => false
  | _, _ => same_value a b
  end.

(** [v.length]: a [TypeError] on [undefined] and [null], the number of
    code units of a string, the number of elements of an array, and
    [undefined] (here [None]) on booleans and numbers. *)
Definition length_of (v : Val) : option (option nat) :=
  match v with
  | Undefined | Null => None
  | Bool _ | Num _ => Some None
  | Str s => Some (Some (String.length s))
  | Arr l => Some (Some (List.length l))
  end.

(** [x < k] where [x] is the result of a [length] access and [k] a
    numeric literal: [undefined] converts to [NaN], and every comparison
    with [NaN] is false. *)
Definition lt_number (x : option nat) (k : nat) : bool :=
  match x with
  | None => false
  | Some n => Nat.ltb n k
  end.

(** *** [parseInt(s, 10)] *)

Definition is_white_space (c : ascii) : bool :=
  let n := nat_of_ascii c in
  (Nat.leb 9 n && Nat.leb n 13) || Nat.eqb n 32 || Nat.eqb n 160.

Fixpoint trim_start (s : string) : string :=
  match s with
  | String c s' => if is_white_space c then trim_start s' else s
  | EmptyString => s
  end.

Definition digit_of (c : ascii) : option Z :=
  let n := nat_of_ascii c in
  if Nat.leb 48 n && Nat.leb n 57 then Some (Z.of_nat (n - 48)) else None.

(** The longest prefix of decimal digits, read left to right; [None] when
    there is no digit at all. *)
Fixpoint digits (s : string) (acc : option Z) : option Z :=
  match s with
  | String c s' =>
      match digit_of c with
      | Some d => digits s' (Some (10 * default 0 acc + d))
      | None => acc
      end
  | EmptyString => acc
  end.

(** [None] is [NaN]. The integer is kept exact (a double rounds it above
    2^53). *)
Definition parseInt (input : string) : option Z :=
  match trim_start input with
  | String "-" rest => Z.opp <$> digits rest None
  | String "+" rest => digits rest None
  | rest => digits rest None
  end.

(** [n || d] on a number: [NaN] and zero are falsy. *)
Definition or_default (n : option Z) (d : Z) : Z :=
  match n with
  | Some v => if Z.eqb v 0 then d else v
  | None => d
  end.

(** [ToString] of a query parameter, which is a string when present. *)
Definition param_text (p : option string) : string :=
  match p with
  | Some s => s
  | None => "undefined"
  end.

End Js.

(** ** Errors *)

(** Modelled from the spec: [core/errors] is not among the sources. An error
    kind is a closed tag; [errorResponder kind message] builds the error
    that carries it, the message being left out ([None]) when the caller
    gives one argument only. *)
Inductive errorTypes : Type :=
| VALIDATION_ERROR
| EMAIL_ALREADY_TAKEN
| UNPROCESSABLE_ENTITY
| NOT_IMPLEMENTED.

(** Everything that can be thrown: an error built by [errorResponder], a
    [TypeError] of the language, or a failure raised by a collaborator
    (the store, the hash library). *)
Inductive Error : Type :=
| AppError (kind : errorTypes) (message : option string)
| TypeError (message : string)
| Failure (name message : string).

Definition errorResponder (kind : errorTypes) (message : option string) : Error :=
  AppError kind message.

(** The errors a controller has classified into one of the kinds. *)
Definition classified (e : Error) : bool :=
  match e with
  | AppError _ _ => true
  | TypeError _ | Failure _ _ => false
  end.

(** ** Asynchronous computations *)

Inductive Outcome (A : Type) : Type :=
| Resolved (value : A)
| Rejected (error : Error).
Arguments Resolved {A} value.
Arguments Rejected {A} error.

(** An [async] function body over the world [W]. *)
Definition Async (W A : Type) : Type := W -> Outcome A * W.

Definition ret {W A} (a : A) : Async W A := fun w => (Resolved a, w).

Definition throw {W A} (e : Error) : Async W A := fun w => (Rejected e, w).

Definition bind {W A B} (m : Async W A) (k : A -> Async W B) : Async W B :=
  fun w =>
    match m w with
    | (Resolved a, w') => k a w'
    | (Rejected e, w') => (Rejected e, w')
    end.

(** [try { body } catch (error) { handler }] *)
Definition try_catch {W A} (body : Async W A) (handler : Error -> Async W A)
  : Async W A :=
  fun w =>
    match body w with
    | (Resolved a, w') => (Resolved a, w')
    | (Rejected e, w') => handler e w'
    end.

Declare Scope async_scope.
Delimit Scope async_scope with async.
Notation "x <- 'await' m ;; k" := (bind m (fun x => k))
  (at level 20, m at level 99, k at level 200, only parsing) : async_scope.
Local Open Scope async_scope.

(** [v.length] as a step of an [async] body; the message of the
    [TypeError] names the value that has no properties. *)
Definition member_length {W} (v : Js.Val) : Async W (option nat) :=
  match Js.length_of v with
  | Some n => ret n
  | None =>
      throw (TypeError ("Cannot read properties of "
                        ++ match v with Js.Null => "null" | _ => "undefined" end
                        ++ " (reading 'length')"))
  end.

(** ** Documents, requests and replies *)

(** Modelled from the spec: the models are not among the sources. A user
    has an opaque identity, an email, a full name and a password kept as a
    salted hash; the email and the full name are stored as they were
    received. *)
Module User.
Record t : Type := make {
  id : string;
  email : Js.Val;
  fullName : Js.Val;
  password : string;
}.
End User.

(** Modelled from the spec: a book has an opaque identity and a title. *)
Module Book.
Record t : Type := make {
  id : string;
  title : Js.Val;
}.
End Book.

(** What [response.json] is given. *)
Inductive Json : Type :=
| Message (message : string)
| UserJson (user : User.t)
| UsersJson (users : list User.t)
| BookJson (book : Book.t)
| BooksJson (books : list Book.t).

(** The request as the framework hands it over: route parameters and query
    parameters are strings, the body is the parsed JSON object. *)
Record Request : Type := {
  params : gmap string string;
  query : gmap string string;
  body : gmap string Js.Val;
}.

(** Reading a property that may be missing. *)
Definition field (o : gmap string Js.Val) (name : string) : Js.Val :=
  default Js.Undefined (o !! name).

Definition param (o : gmap string string) (name : string) : Js.Val :=
  from_option Js.Str Js.Undefined (o !! name).

(** How a handler ends when its promise resolves: it has sent
    [response.status(status).json(body)], or it has called [next(error)]. *)
Inductive Reply : Type :=
| Sent (status : Z) (body : Json)
| Next (error : Error).

(** ** Collaborators of the users controller *)

(** [users-service.js] is not among the sources; the controller is written
    against the operations it calls. *)
Module usersService.
Record t (W : Type) : Type := {
  getUsers : Z -> Z -> Async W (list User.t);
  getUser : Js.Val -> Async W (option User.t);
  getUserByEmail : Js.Val -> Async W (option User.t);
  emailExists : Js.Val -> Async W bool;
  createUser : Js.Val -> string -> Js.Val -> Async W bool;
  updateUser : Js.Val -> Js.Val -> Js.Val -> Async W bool;
  deleteUser : Js.Val -> Async W bool;
}.
Arguments getUsers {W}.
Arguments getUser {W}.
Arguments getUserByEmail {W}.
Arguments emailExists {W}.
Arguments createUser {W}.
Arguments updateUser {W}.
Arguments deleteUser {W}.
End usersService.

(** [utils/password.js] is not among the sources either. *)
Module passwords.
Record t (W : Type) : Type := {
  hashPassword : Js.Val -> Async W string;
  passwordMatched : Js.Val -> string -> Async W bool;
}.
Arguments hashPassword {W}.
Arguments passwordMatched {W}.
End passwords.

(** ** [users-controller.js] *)

Module UsersController.
Section handlers.
Context {W : Type}.
Variable svc : usersService.t W.
Variable pw : passwords.t W.

Definition getUsers (request : Request) : Async W Reply :=
  let offset := Js.or_default (Js.parseInt (Js.param_text (query request !! "offset"))) 0 in
  let limit := Js.or_default (Js.parseInt (Js.param_text (query request !! "limit"))) 10 in
  try_catch
    (users <- await usersService.getUsers svc offset limit ;;
     ret (Sent 200 (UsersJson users)))
    (fun error => ret (Next error)).

Definition getUser (request : Request) : Async W Reply :=
  try_catch
    (user <- await usersService.getUser svc (param (params request) "id") ;;
     match user with
     | None => throw (errorResponder UNPROCESSABLE_ENTITY (Some "User not found"))
     | Some user => ret (Sent 200 (UserJson user))
     end)
    (fun error => ret (Next error)).

Definition createUser (request : Request) : Async W Reply :=
  try_catch
    (let email := field (body request) "email" in
     let password := field (body request) "password" in
     let fullName := field (body request) "full_name" in
     let confirmPassword := field (body request) "confirm_password" in
     if negb (Js.truthy email) then
       throw (errorResponder VALIDATION_ERROR (Some "Email is required"))
     else
     if negb (Js.truthy fullName) then
       throw (errorResponder VALIDATION_ERROR (Some "Full name is required"))
     else
     taken <- await usersService.emailExists svc email ;;
     if taken then
       throw (errorResponder EMAIL_ALREADY_TAKEN (Some "Email already exists"))
     else
     len <- await member_length password ;;
     if Js.lt_number len 8 then
       throw (errorResponder VALIDATION_ERROR
                (Some "Password must be at least 8 characters long"))
     else
     if negb (Js.strict_eq password confirmPassword) then
       throw (errorResponder VALIDATION_ERROR
                (Some "Password and confirm password do not match"))
     else
     hashedPassword <- await passwords.hashPassword pw password ;;
     success <- await usersService.createUser svc email hashedPassword fullName ;;
     if negb success then
       throw (errorResponder UNPROCESSABLE_ENTITY (Some "Failed to create user"))
     else
     ret (Sent 201 (Message "User created successfully")))
    (fun error => ret (Next error)).

Definition updateUser (request : Request) : Async W Reply :=
  try_catch
    (let email := field (body request) "email" in
     let fullName := field (body request) "full_name" in
     user <- await usersService.getUser svc (param (params request) "id") ;;
     match user with
     | None => throw (errorResponder UNPROCESSABLE_ENTITY (Some "User not found"))
     | Some user =>
         if negb (Js.truthy email) then
           throw (errorResponder VALIDATION_ERROR (Some "Email is required"))
         else
         if negb (Js.truthy fullName) then
           throw (errorResponder VALIDATION_ERROR (Some "Full name is required"))
         else
         taken <- await (if negb (Js.strict_eq email (User.email user))
                         then usersService.emailExists svc email
                         else ret false) ;;
         if taken then
           throw (errorResponder EMAIL_ALREADY_TAKEN (Some "Email already exists"))
         else
         success <- await usersService.updateUser svc
                            (param (params request) "id") email fullName ;;
         if negb success then
           throw (errorResponder UNPROCESSABLE_ENTITY (Some "Failed to update user"))
         else
         ret (Sent 200 (Message "User updated successfully"))
     end)
    (fun error => ret (Next error)).

(** No [try] here: a rejection of an awaited call rejects the handler. *)
Definition loginUser (request : Request) : Async W Reply :=
  let email := field (body request) "email" in
  let password := field (body request) "password" in
  if negb (Js.truthy email) || negb (Js.truthy password) then
    ret (Next (errorResponder VALIDATION_ERROR
                 (Some "Email and password are required")))
  else
  user <- await usersService.getUserByEmail svc email ;;
  match user with
  | None =>
      ret (Next (errorResponder UNPROCESSABLE_ENTITY
                   (Some "Invalid email or password")))
  | Some user =>
      passwordIsValid <- await passwords.passwordMatched pw password
                                 (User.password user) ;;
      if negb passwordIsValid then
        ret (Next (errorResponder UNPROCESSABLE_ENTITY
                     (Some "Invalid email or password")))
      else
      ret (Sent 200 (Message "Login successful"))
  end.

Definition changePassword (request : Request) : Async W Reply :=
  ret (Next (errorResponder NOT_IMPLEMENTED None)).

Definition deleteUser (request : Request) : Async W Reply :=
  try_catch
    (success <- await usersService.deleteUser svc (param (params request) "id") ;;
     if negb success then
       throw (errorResponder UNPROCESSABLE_ENTITY (Some "Failed to delete user"))
     else
     ret (Sent 200 (Message "User deleted successfully")))
    (fun error => ret (Next error)).

End handlers.
End UsersController.

(** ** The document store *)

(** Modelled from the spec: the store and its driver are collaborators
    outside the sources. A collection keeps its documents in insertion
    order; [next_id] numbers the identities handed out so far; [outage],
    when set, is the failure (of connectivity, say) with which every
    storage operation rejects. *)
Record Store : Type := {
  users : list User.t;
  books : list Book.t;
  next_id : N;
  outage : option Error;
}.

(** One storage operation: it rejects during an outage and otherwise
    answers from the collections. *)
Definition storage {A} (op : Store -> A * Store) : Async Store A :=
  fun s =>
    match outage s with
    | Some e => (Rejected e, s)
    | None => let (a, s') := op s in (Resolved a, s')
    end.

(** Modelled from the spec: a page passes over the first [offset]
    documents and keeps at most [limit] of the rest, in storage order. The
    spec says nothing of negative counts; they pass over, or keep,
    nothing. *)
Definition page {A} (offset limit : Z) (docs : list A) : list A :=
  take (Z.to_nat limit) (drop (Z.to_nat offset) docs).

(** Modelled from the spec: the [Books] model of [models/], with the part
    of its query interface that the repository uses. *)
Module Books.

Record Query : Type := {
  skipped : Z;
  limited : option Z;
}.

Definition find : Query := {| skipped := 0; limited := None |}.

Definition skip (n : Z) (q : Query) : Query :=
  {| skipped := n; limited := limited q |}.

Definition limit (n : Z) (q : Query) : Query :=
  {| skipped := skipped q; limited := Some n |}.

(** Awaiting a query runs it. *)
Definition exec (q : Query) : Async Store (list Book.t) :=
  storage (fun s =>
    (match limited q with
     | Some n => page (skipped q) n (books s)
     | None => drop (Z.to_nat (skipped q)) (books s)
     end, s)).

Definition create (title : Js.Val) : Async Store Book.t :=
  storage (fun s =>
    let book := Book.make (pretty (next_id s)) title in
    (book, {| users := users s; books := books s ++ [book];
              next_id := N.succ (next_id s); outage := outage s |})).

End Books.

(** ** [books-repository.js] *)

Module booksRepository.

Definition getBooks (offset limit : Z) : Async Store (list Book.t) :=
  Books.exec (Books.limit limit (Books.skip offset Books.find)).

Definition create (title : Js.Val) : Async Store Book.t :=
  Books.create title.

End booksRepository.

(** ** [books-service.js] *)

Module booksService.

Definition getBooks (offset limit : Z) : Async Store (list Book.t) :=
  booksRepository.getBooks offset limit.

Definition create (title : Js.Val) : Async Store Book.t :=
  booksRepository.create title.

End booksService.

(** ** [books-controller.js] *)

Module BooksController.

Definition getBooks (request : Request) : Async Store Reply :=
  let offset := Js.or_default (Js.parseInt (Js.param_text (query request !! "offset"))) 0 in
  let limit := Js.or_default (Js.parseInt (Js.param_text (query request !! "limit"))) 10 in
  try_catch
    (books <- await booksService.getBooks offset limit ;;
     ret (Sent 200 (BooksJson books)))
    (fun error => ret (Next error)).

Definition createBook (request : Request) : Async Store Reply :=
  try_catch
    (let title := field (body request) "title" in
     if negb (Js.truthy title) then
       throw (errorResponder VALIDATION_ERROR (Some "Title is required"))
     else
     book <- await booksService.create title ;;
     ret (Sent 200 (BookJson book)))
    (fun error => ret (Next error)).

End BooksController.

(** ** The users repository and service over the store *)

(** Modelled from the spec: [users-repository.js] is not among the
    sources. Every operation goes straight to the store. A user is found
    by identity or by email; a new user is appended with a fresh identity;
    an update rewrites the email and the full name of the user with the
    given identity and nothing else; the flag of an update or a deletion
    tells whether there was such a user. *)
Module usersRepository.

Definition has_id (id : Js.Val) (u : User.t) : bool :=
  Js.same_value (Js.Str (User.id u)) id.

Definition has_email (email : Js.Val) (u : User.t) : bool :=
  Js.same_value (User.email u) email.

Arguments has_id : simpl never.
Arguments has_email : simpl never.

Fixpoint update_first (id email fullName : Js.Val) (l : list User.t) : list User.t :=
  match l with
  | [] => []
  | u :: l' =>
      if has_id id u
      then User.make (User.id u) email fullName (User.password u) :: l'
      else u :: update_first id email fullName l'
  end.

Fixpoint delete_first (id : Js.Val) (l : list User.t) : list User.t :=
  match l with
  | [] => []
  | u :: l' => if has_id id u then l' else u :: delete_first id l'
  end.

Definition with_users (s : Store) (l : list User.t) : Store :=
  {| users := l; books := books s; next_id := next_id s; outage := outage s |}.

Definition getUsers (offset limit : Z) : Async Store (list User.t) :=
  storage (fun s => (page offset limit (users s), s)).

Definition getUser (id : Js.Val) : Async Store (option User.t) :=
  storage (fun s => (List.find (has_id id) (users s), s)).

Definition getUserByEmail (email : Js.Val) : Async Store (option User.t) :=
  storage (fun s => (List.find (has_email email) (users s), s)).

Definition createUser (email : Js.Val) (password : string) (fullName : Js.Val)
  : Async Store bool :=
  storage (fun s =>
    let user := User.make (pretty (next_id s)) email fullName password in
    (true, {| users := users s ++ [user]; books := books s;
              next_id := N.succ (next_id s); outage := outage s |})).

Definition updateUser (id email fullName : Js.Val) : Async Store bool :=
  storage (fun s =>
    (existsb (has_id id) (users s),
     with_users s (update_first id email fullName (users s)))).

Definition deleteUser (id : Js.Val) : Async Store bool :=
  storage (fun s =>
    (existsb (has_id id) (users s), with_users s (delete_first id (users s)))).

End usersRepository.

(** Modelled from the spec: [users-service.js] is not among the sources.
    [emailExists] holds exactly when [getUserByEmail] returns a record;
    everything else is handed to the repository as it is. *)
Module usersServiceModel.

Definition getUsers := usersRepository.getUsers.
Definition getUser := usersRepository.getUser.
Definition getUserByEmail := usersRepository.getUserByEmail.
Definition createUser := usersRepository.createUser.
Definition updateUser := usersRepository.updateUser.
Definition deleteUser := usersRepository.deleteUser.

Definition emailExists (email : Js.Val) : Async Store bool :=
  user <- await usersRepository.getUserByEmail email ;;
  ret (bool_decide (is_Some user)).

End usersServiceModel.

(** ** The world of one deployment *)

(** The store, next to whatever state [E] the hash library draws its salts
    from. The service reaches the store only, the hash library its own
    state only. *)
Section World.
Context {E : Type}.

Definition on_store {A} (m : Async Store A) : Async (Store * E) A :=
  fun w => let (r, s') := m (fst w) in (r, (s', snd w)).

Definition on_hasher {A} (m : Async E A) : Async (Store * E) A :=
  fun w => let (r, e') := m (snd w) in (r, (fst w, e')).

Definition service : usersService.t (Store * E) := {|
  usersService.getUsers offset limit := on_store (usersServiceModel.getUsers offset limit);
  usersService.getUser id := on_store (usersServiceModel.getUser id);
  usersService.getUserByEmail email := on_store (usersServiceModel.getUserByEmail email);
  usersService.emailExists email := on_store (usersServiceModel.emailExists email);
  usersService.createUser email password fullName :=
    on_store (usersServiceModel.createUser email password fullName);
  usersService.updateUser id email fullName :=
    on_store (usersServiceModel.updateUser id email fullName);
  usersService.deleteUser id := on_store (usersServiceModel.deleteUser id);
|}.

Definition hasher (h : passwords.t E) : passwords.t (Store * E) := {|
  passwords.hashPassword password := on_hasher (passwords.hashPassword h password);
  passwords.passwordMatched password hashed :=
    on_hasher (passwords.passwordMatched h password hashed);
|}.

End World.

(** ** Views of the store used in the statements *)

(** The user with its stored hash blanked, and the store with every hash
    blanked: two stores with the same blanked view differ in the hashes
    only. *)
Definition blank (u : User.t) : User.t :=
  User.make (User.id u) (User.email u) (User.fullName u) EmptyString.

Definition blanked (s : Store) : Store :=
  usersRepository.with_users s (map blank (users s)).

(** ** A hash library and sample data for the examples *)

(** What the controller relies on: a hash made of a password is accepted
    by the matcher for that password, whatever state the library is in. *)
Definition hasher_sound {E} (h : passwords.t E) : Prop :=
  forall password e hashed e',
    passwords.hashPassword h password e = (Resolved hashed, e') ->
    forall e1, exists e2,
      passwords.passwordMatched h password hashed e1 = (Resolved true, e2).

(** A stand-in for the hash library: the state is a counter, the salt is
    its current value, and a hash is the salt followed by the password.
    Only strings can be hashed. *)
Definition demo_hasher : passwords.t nat := {|
  passwords.hashPassword password := fun salt =>
    match password with
    | Js.Str s => (Resolved (String (ascii_of_nat salt) s), S salt)
    | _ => (Rejected (Failure "Error" "data must be a string"), salt)
    end;
  passwords.passwordMatched password hashed := fun salt =>
    match password, hashed with
    | Js.Str s, String _ rest => (Resolved (String.eqb rest s), salt)
    | Js.Str _, EmptyString => (Resolved false, salt)
    | _, _ => (Rejected (Failure "Error" "data must be a string"), salt)
    end;
|}.

Definition alice : User.t :=
  User.make "0" (Js.Str "alice@example.com") (Js.Str "Alice") "7correct horse".

Definition bob : User.t :=
  User.make "1" (Js.Str "bob@example.com") (Js.Str "Bob") "8battery staple".

Definition shelf : list Book.t :=
  imap (fun i name => Book.make (pretty (N.of_nat (2 + i))) (Js.Str name))
    ["A"; "B"; "C"; "D"; "E"; "F"; "G"; "H"; "I"; "J"; "K"; "L"].

Definition demo_store : Store :=
  {| users := [alice; bob]; books := shelf; next_id := 14; outage := None |}.

Definition store_down : Store :=
  {| users := [alice; bob]; books := shelf; next_id := 14;
     outage := Some (Failure "MongoNetworkError" "connection refused") |}.

Definition post (fields : list (string * Js.Val)) : Request :=
  {| params := ∅; query := ∅; body := list_to_map fields |}.

Definition put (id : string) (fields : list (string * Js.Val)) : Request :=
  {| params := {[ "id" := id ]}; query := ∅; body := list_to_map fields |}.

Definition get (parameters : list (string * string)) : Request :=
  {| params := ∅; query := list_to_map parameters; body := ∅ |}.

Definition register_carol : Request :=
  post [("email", Js.Str "carol@example.com"); ("password", Js.Str "longenough");
        ("confirm_password", Js.Str "longenough"); ("full_name", Js.Str "Carol")].

Definition login_carol : Request :=
  post [("email", Js.Str "carol@example.com"); ("password", Js.Str "longenough")].

Definition login_nobody : Request :=
  post [("email", Js.Str "nobody@example.com"); ("password", Js.Str "whatever!")].

Definition login_alice_wrong : Request :=
  post [("email", Js.Str "alice@example.com"); ("password", Js.Str "wrong horse")].

Definition register_no_email : Request :=
  post [("password", Js.Str "short"); ("full_name", Js.Str "Carol")].

Definition register_no_name : Request :=
  post [("email", Js.Str "alice@example.com"); ("password", Js.Str "short")].

Definition register_taken : Request :=
  post [("email", Js.Str "alice@example.com"); ("password", Js.Str "short");
        ("confirm_password", Js.Str "other"); ("full_name", Js.Str "Alice")].

Definition register_short : Request :=
  post [("email", Js.Str "carol@example.com"); ("password", Js.Str "short");
        ("confirm_password", Js.Str "short"); ("full_name", Js.Str "Carol")].

Definition register_mismatch : Request :=
  post [("email", Js.Str "carol@example.com"); ("password", Js.Str "longenough");
        ("confirm_password", Js.Str "longenoug"); ("full_name", Js.Str "Carol")].

Definition register_no_password : Request :=
  post [("email", Js.Str "carol@example.com"); ("full_name", Js.Str "Carol")].

Definition rename_bob : Request :=
  put "1" [("email", Js.Str "bob@example.com"); ("full_name", Js.Str "Robert")].

Definition bob_takes_alice : Request :=
  put "1" [("email", Js.Str "alice@example.com"); ("full_name", Js.Str "Bob")].

(** [demo_store] with other hashes. *)
Definition rehashed_store : Store :=
  {| users := [User.make "0" (Js.Str "alice@example.com") (Js.Str "Alice") "3tr0ub4dor";
               User.make "1" (Js.Str "bob@example.com") (Js.Str "Bob") "x"];
     books := shelf; next_id := 14; outage := None |}.

(** * Properties *)

Example parseInt_plain : Js.parseInt "25" = Some 25.
Proof. reflexivity. Qed.

Example parseInt_padded : Js.parseInt "  -7px" = Some (-7).
Proof. reflexivity. Qed.

Example parseInt_absent : Js.parseInt (Js.param_text None) = None.
Proof. reflexivity. Qed.

Example length_of_short : Js.length_of (Js.Str "short") = Some (Some 5%nat).
Proof. reflexivity. Qed.

Example empty_string_falsy : Js.truthy (Js.Str EmptyString) = false.
Proof. reflexivity. Qed.

Example arrays_never_identical : Js.strict_eq (Js.Arr []) (Js.Arr []) = false.
Proof. reflexivity. Qed.

(** ** Running an [async] body *)

Section Running.
Context {W A B : Type}.

Lemma bind_resolved (m : Async W A) (k : A -> Async W B) w a w' :
  m w = (Resolved a, w') -> bind m k w = k a w'.
Proof. intros H. unfold bind. now rewrite H. Qed.

Lemma bind_rejected (m : Async W A) (k : A -> Async W B) w e w' :
  m w = (Rejected e, w') -> bind m k w = (Rejected e, w').
Proof. intros H. unfold bind. now rewrite H. Qed.

Lemma try_catch_resolved (m : Async W A) h w a w' :
  m w = (Resolved a, w') -> try_catch m h w = (Resolved a, w').
Proof. intros H. unfold try_catch. now rewrite H. Qed.

Lemma try_catch_rejected (m : Async W A) h w e w' :
  m w = (Rejected e, w') -> try_catch m h w = h e w'.
Proof. intros H. unfold try_catch. now rewrite H. Qed.

End Running.

(** A handler whose whole body sits in [try]/[catch (error) { return
    next(error) }] always resolves: what its body throws is what [next]
    receives. *)
Lemma guarded_resolves {W} (body : Async W Reply) w :
  exists reply w',
    try_catch body (fun error => ret (Next error)) w = (Resolved reply, w') /\
    (forall e, body w = (Rejected e, w') -> reply = Next e).
Proof.
  unfold try_catch, ret. destruct (body w) as [[reply | e] w'] eqn:Hrun.
  - exists reply, w'. split; [reflexivity | congruence].
  - exists (Next e), w'. split; [reflexivity | congruence].
Qed.

Lemma member_length_string {W} (s : string) (w : W) :
  member_length (Js.Str s) w = (Resolved (Some (String.length s)), w).
Proof. reflexivity. Qed.

Lemma member_length_undefined {W} (w : W) :
  member_length (W := W) Js.Undefined w =
  (Rejected (TypeError "Cannot read properties of undefined (reading 'length')"), w).
Proof. reflexivity. Qed.

(** ** Registration *)

Section Registration.
Context {W : Type}.
Variable svc : usersService.t W.
Variable pw : passwords.t W.

Local Abbreviation email request := (field (body request) "email").
Local Abbreviation fullName request := (field (body request) "full_name").
Local Abbreviation password request := (field (body request) "password").
Local Abbreviation confirmPassword request := (field (body request) "confirm_password").

(** The body of [createUser] from the uniqueness check on, once both
    presence checks have passed. *)
Lemma createUser_present request :
  Js.truthy (email request) = true ->
  Js.truthy (fullName request) = true ->
  UsersController.createUser svc pw request =
  try_catch
    (taken <- await usersService.emailExists svc (email request) ;;
     if taken then
       throw (errorResponder EMAIL_ALREADY_TAKEN (Some "Email already exists"))
     else
     len <- await member_length (password request) ;;
     if Js.lt_number len 8 then
       throw (errorResponder VALIDATION_ERROR
                (Some "Password must be at least 8 characters long"))
     else
     if negb (Js.strict_eq (password request) (confirmPassword request)) then
       throw (errorResponder VALIDATION_ERROR
                (Some "Password and confirm password do not match"))
     else
     hashedPassword <- await passwords.hashPassword pw (password request) ;;
     success <- await usersService.createUser svc (email request) hashedPassword
                        (fullName request) ;;
     if negb success then
       throw (errorResponder UNPROCESSABLE_ENTITY (Some "Failed to create user"))
     else
     ret (Sent 201 (Message "User created successfully")))
    (fun error => ret (Next error)).
Proof.
  intros He Hn. unfold UsersController.createUser. now rewrite He, Hn.
Qed.

(** The length check on a value that has a [length]. *)
Lemma createUser_length_check request w w1 len :
  Js.truthy (email request) = true ->
  Js.truthy (fullName request) = true ->
  usersService.emailExists svc (email request) w = (Resolved false, w1) ->
  Js.length_of (password request) = Some (Some len) ->
  (len < 8)%nat ->
  UsersController.createUser svc pw request w =
  (Resolved (Next (AppError VALIDATION_ERROR
                     (Some "Password must be at least 8 characters long"))), w1).
Proof.
  intros He Hn Hx Hlen Hshort. rewrite (createUser_present _ He Hn).
  unfold try_catch, bind, member_length. rewrite Hx, Hlen.
  unfold Js.lt_number, ret. apply Nat.ltb_lt in Hshort. now rewrite Hshort.
Qed.

(** Past every check: the password is hashed, the user persisted, and the
    flag of the persistence decides the reply. *)
Lemma createUser_accepted request w w1 len hashed w2 success w3 :
  Js.truthy (email request) = true ->
  Js.truthy (fullName request) = true ->
  usersService.emailExists svc (email request) w = (Resolved false, w1) ->
  Js.length_of (password request) = Some len ->
  Js.lt_number len 8 = false ->
  Js.strict_eq (password request) (confirmPassword request) = true ->
  passwords.hashPassword pw (password request) w1 = (Resolved hashed, w2) ->
  usersService.createUser svc (email request) hashed (fullName request) w2 =
    (Resolved success, w3) ->
  UsersController.createUser svc pw request w =
  (Resolved (if success
             then Sent 201 (Message "User created successfully")
             else Next (AppError UNPROCESSABLE_ENTITY (Some "Failed to create user"))),
   w3).
Proof.
  intros He Hn Hx Hlen Hlt Heq Hhash Hsave.
  rewrite (createUser_present _ He Hn).
  unfold try_catch, bind, member_length. rewrite Hx, Hlen. cbn.
  rewrite Hlt, Heq. cbn. rewrite Hhash, Hsave. now destruct success.
Qed.

(** C1. [createUser] checks, in this order, that the email is present, that
    the full name is present, that the email is not registered yet, that
    the password has at least 8 characters and that it equals its
    confirmation, and only then hashes and persists. The reply carries the
    error of the first check that fails, whatever the later fields hold: in
    particular a registered email is answered with EMAIL_ALREADY_TAKEN
    whatever the password fields are. *)
Theorem createUser_first_failing_check_wins request w :
  (Js.truthy (email request) = false ->
   UsersController.createUser svc pw request w =
   (Resolved (Next (AppError VALIDATION_ERROR (Some "Email is required"))), w))
  /\
  (Js.truthy (email request) = true ->
   Js.truthy (fullName request) = false ->
   UsersController.createUser svc pw request w =
   (Resolved (Next (AppError VALIDATION_ERROR (Some "Full name is required"))), w))
  /\
  (forall w1,
   Js.truthy (email request) = true ->
   Js.truthy (fullName request) = true ->
   usersService.emailExists svc (email request) w = (Resolved true, w1) ->
   UsersController.createUser svc pw request w =
   (Resolved (Next (AppError EMAIL_ALREADY_TAKEN (Some "Email already exists"))), w1))
  /\
  (forall w1 len,
   Js.truthy (email request) = true ->
   Js.truthy (fullName request) = true ->
   usersService.emailExists svc (email request) w = (Resolved false, w1) ->
   Js.length_of (password request) = Some len ->
   Js.lt_number len 8 = true ->
   UsersController.createUser svc pw request w =
   (Resolved (Next (AppError VALIDATION_ERROR
                      (Some "Password must be at least 8 characters long"))), w1))
  /\
  (forall w1 len,
   Js.truthy (email request) = true ->
   Js.truthy (fullName request) = true ->
   usersService.emailExists svc (email request) w = (Resolved false, w1) ->
   Js.length_of (password request) = Some len ->
   Js.lt_number len 8 = false ->
   Js.strict_eq (password request) (confirmPassword request) = false ->
   UsersController.createUser svc pw request w =
   (Resolved (Next (AppError VALIDATION_ERROR
                      (Some "Password and confirm password do not match"))), w1))
  /\
  (forall w1 len hashed w2 success w3,
   Js.truthy (email request) = true ->
   Js.truthy (fullName request) = true ->
   usersService.emailExists svc (email request) w = (Resolved false, w1) ->
   Js.length_of (password request) = Some len ->
   Js.lt_number len 8 = false ->
   Js.strict_eq (password request) (confirmPassword request) = true ->
   passwords.hashPassword pw (password request) w1 = (Resolved hashed, w2) ->
   usersService.createUser svc (email request) hashed (fullName request) w2 =
     (Resolved success, w3) ->
   UsersController.createUser svc pw request w =
   (Resolved (if success
              then Sent 201 (Message "User created successfully")
              else Next (AppError UNPROCESSABLE_ENTITY (Some "Failed to create user"))),
    w3)).
Proof.
  repeat split.
  - intros He. unfold UsersController.createUser, try_catch. now rewrite He.
  - intros He Hn. unfold UsersController.createUser, try_catch. now rewrite He, Hn.
  - intros w1 He Hn Hx. rewrite (createUser_present _ He Hn).
    unfold try_catch, bind. now rewrite Hx.
  - intros w1 len He Hn Hx Hlen Hlt. rewrite (createUser_present _ He Hn).
    unfold try_catch, bind, member_length. rewrite Hx, Hlen. cbn.
    now rewrite Hlt.
  - intros w1 len He Hn Hx Hlen Hlt Hneq. rewrite (createUser_present _ He Hn).
    unfold try_catch, bind, member_length. rewrite Hx, Hlen. cbn.
    now rewrite Hlt, Hneq.
  - intros w1 len hashed w2 success w3. apply createUser_accepted.
Qed.

(** C4. Once the email and the full name are present and the email is not
    registered, a password whose length is less than 8 (a string of fewer
    than 8 characters, in particular) is answered with a VALIDATION_ERROR,
    whatever the confirmation is. *)
Theorem createUser_short_password request w w1 len :
  Js.truthy (email request) = true ->
  Js.truthy (fullName request) = true ->
  usersService.emailExists svc (email request) w = (Resolved false, w1) ->
  Js.length_of (password request) = Some (Some len) ->
  (len < 8)%nat ->
  UsersController.createUser svc pw request w =
  (Resolved (Next (AppError VALIDATION_ERROR
                     (Some "Password must be at least 8 characters long"))), w1).
Proof. apply createUser_length_check. Qed.

(** C10. With the email and the full name present and the email not
    registered, a body without a password makes the length check read
    [length] off [undefined]: the [TypeError] goes to [next] as it is, it
    is not one of the classified kinds. When the password is a string the
    check throws no [TypeError]: it reports the VALIDATION_ERROR if the
    string is shorter than 8 characters and goes on to the confirmation
    check otherwise. *)
Theorem createUser_password_absent request w w1 :
  Js.truthy (email request) = true ->
  Js.truthy (fullName request) = true ->
  usersService.emailExists svc (email request) w = (Resolved false, w1) ->
  (body request !! "password" = None ->
   UsersController.createUser svc pw request w =
   (Resolved
      (Next (TypeError "Cannot read properties of undefined (reading 'length')")),
    w1) /\
   classified
     (TypeError "Cannot read properties of undefined (reading 'length')") = false) /\
  (forall p,
   body request !! "password" = Some (Js.Str p) ->
   member_length (password request) w1 = (Resolved (Some (String.length p)), w1) /\
   ((String.length p < 8)%nat ->
    UsersController.createUser svc pw request w =
    (Resolved (Next (AppError VALIDATION_ERROR
                       (Some "Password must be at least 8 characters long"))), w1)) /\
   ((8 <= String.length p)%nat ->
    Js.strict_eq (Js.Str p) (confirmPassword request) = false ->
    UsersController.createUser svc pw request w =
    (Resolved (Next (AppError VALIDATION_ERROR
                       (Some "Password and confirm password do not match"))), w1))).
Proof.
  intros He Hn Hx. split.
  - intros Habsent. split; [| reflexivity].
    rewrite (createUser_present _ He Hn).
    unfold try_catch, bind. rewrite Hx. unfold field at 1. rewrite Habsent.
    reflexivity.
  - intros p Hp.
    assert (Hfield : password request = Js.Str p) by (unfold field; now rewrite Hp).
    rewrite Hfield. split; [reflexivity | split].
    + intros Hshort. apply createUser_length_check with (len := String.length p);
        [assumption .. | now rewrite Hfield | exact Hshort].
    + intros Hlong Hneq. rewrite (createUser_present _ He Hn).
      unfold try_catch, bind. rewrite Hx, Hfield, member_length_string.
      unfold Js.lt_number. apply Nat.ltb_ge in Hlong. now rewrite Hlong, Hneq.
Qed.

End Registration.

(** ** Login, change of password, and where errors go *)

Section Login.
Context {W : Type}.
Variable svc : usersService.t W.
Variable pw : passwords.t W.

Local Abbreviation email request := (field (body request) "email").
Local Abbreviation password request := (field (body request) "password").

Lemma loginUser_present request :
  Js.truthy (email request) = true ->
  Js.truthy (password request) = true ->
  UsersController.loginUser svc pw request =
  (user <- await usersService.getUserByEmail svc (email request) ;;
   match user with
   | None =>
       ret (Next (errorResponder UNPROCESSABLE_ENTITY
                    (Some "Invalid email or password")))
   | Some user =>
       passwordIsValid <- await passwords.passwordMatched pw (password request)
                                  (User.password user) ;;
       if negb passwordIsValid then
         ret (Next (errorResponder UNPROCESSABLE_ENTITY
                      (Some "Invalid email or password")))
       else
       ret (Sent 200 (Message "Login successful"))
   end).
Proof.
  intros He Hp. unfold UsersController.loginUser. now rewrite He, Hp.
Qed.

Lemma loginUser_unknown_email request w w1 :
  Js.truthy (email request) = true ->
  Js.truthy (password request) = true ->
  usersService.getUserByEmail svc (email request) w = (Resolved None, w1) ->
  UsersController.loginUser svc pw request w =
  (Resolved (Next (AppError UNPROCESSABLE_ENTITY (Some "Invalid email or password"))),
   w1).
Proof.
  intros He Hp Hfind. rewrite (loginUser_present _ He Hp).
  now rewrite (bind_resolved _ _ _ _ _ Hfind).
Qed.

Lemma loginUser_checked request w w1 user valid w2 :
  Js.truthy (email request) = true ->
  Js.truthy (password request) = true ->
  usersService.getUserByEmail svc (email request) w = (Resolved (Some user), w1) ->
  passwords.passwordMatched pw (password request) (User.password user) w1 =
    (Resolved valid, w2) ->
  UsersController.loginUser svc pw request w =
  (Resolved (if valid
             then Sent 200 (Message "Login successful")
             else Next (AppError UNPROCESSABLE_ENTITY
                          (Some "Invalid email or password"))),
   w2).
Proof.
  intros He Hp Hfind Hmatch. rewrite (loginUser_present _ He Hp).
  rewrite (bind_resolved _ _ _ _ _ Hfind), (bind_resolved _ _ _ _ _ Hmatch).
  now destruct valid.
Qed.

(** C2. With the email and the password present, a login whose email
    matches no user and a login whose password fails the verification
    against the stored hash are answered with the same error:
    UNPROCESSABLE_ENTITY, "Invalid email or password". *)
Theorem loginUser_failures_indistinguishable
    (unknown wrong : Request) (w w1 v v1 v2 : W) (user : User.t) :
  Js.truthy (email unknown) = true ->
  Js.truthy (password unknown) = true ->
  Js.truthy (email wrong) = true ->
  Js.truthy (password wrong) = true ->
  usersService.getUserByEmail svc (email unknown) w = (Resolved None, w1) ->
  usersService.getUserByEmail svc (email wrong) v = (Resolved (Some user), v1) ->
  passwords.passwordMatched pw (password wrong) (User.password user) v1 =
    (Resolved false, v2) ->
  fst (UsersController.loginUser svc pw unknown w) =
  fst (UsersController.loginUser svc pw wrong v) /\
  fst (UsersController.loginUser svc pw unknown w) =
  Resolved (Next (AppError UNPROCESSABLE_ENTITY (Some "Invalid email or password"))).
Proof.
  intros He Hp He' Hp' Hnone Hsome Hmatch.
  rewrite (loginUser_unknown_email _ _ _ He Hp Hnone).
  rewrite (loginUser_checked _ _ _ _ _ _ He' Hp' Hsome Hmatch).
  split; reflexivity.
Qed.

(** C6. [changePassword] answers every request with NOT_IMPLEMENTED and
    does nothing else. *)
Theorem changePassword_not_implemented (request : Request) (w : W) :
  UsersController.changePassword request w =
  (Resolved (Next (AppError NOT_IMPLEMENTED None)), w).
Proof. reflexivity. Qed.

(** Five of the handlers are one [try] whose [catch] is [next(error)]. *)
Lemma guarded_handlers request :
  (exists body, UsersController.getUsers svc request =
                try_catch body (fun error => ret (Next error))) /\
  (exists body, UsersController.getUser svc request =
                try_catch body (fun error => ret (Next error))) /\
  (exists body, UsersController.createUser svc pw request =
                try_catch body (fun error => ret (Next error))) /\
  (exists body, UsersController.updateUser svc request =
                try_catch body (fun error => ret (Next error))) /\
  (exists body, UsersController.deleteUser svc request =
                try_catch body (fun error => ret (Next error))).
Proof.
  split; [| split; [| split; [| split]]]; eexists; reflexivity.
Qed.

(** So they hand every error to [next]: none of them rejects. *)
Lemma guarded_handlers_resolve request w :
  (exists reply w', UsersController.getUsers svc request w = (Resolved reply, w')) /\
  (exists reply w', UsersController.getUser svc request w = (Resolved reply, w')) /\
  (exists reply w', UsersController.createUser svc pw request w = (Resolved reply, w')) /\
  (exists reply w', UsersController.updateUser svc request w = (Resolved reply, w')) /\
  (exists reply w', UsersController.deleteUser svc request w = (Resolved reply, w')).
Proof.
  destruct (guarded_handlers request)
    as ([b1 ->] & [b2 ->] & [b3 ->] & [b4 ->] & [b5 ->]).
  split; [| split; [| split; [| split]]];
    match goal with
    | |- exists reply w', try_catch ?b _ _ = _ =>
        destruct (guarded_resolves b w) as (reply & w' & Hrun & _);
        exists reply, w'; exact Hrun
    end.
Qed.

(** A storage failure inside [getUsers] reaches [next] unchanged. *)
Lemma getUsers_failure_reaches_next request w e w' :
  usersService.getUsers svc
    (Js.or_default (Js.parseInt (Js.param_text (query request !! "offset"))) 0)
    (Js.or_default (Js.parseInt (Js.param_text (query request !! "limit"))) 10) w =
    (Rejected e, w') ->
  UsersController.getUsers svc request w = (Resolved (Next e), w').
Proof.
  intros Hfail. unfold UsersController.getUsers.
  now rewrite (try_catch_rejected _ _ _ _ _ (bind_rejected _ _ _ _ _ Hfail)).
Qed.

(** The same failure inside [createUser] reaches [next] unchanged. *)
Lemma createUser_failure_reaches_next request w e w' :
  Js.truthy (email request) = true ->
  Js.truthy (field (body request) "full_name") = true ->
  usersService.emailExists svc (email request) w = (Rejected e, w') ->
  UsersController.createUser svc pw request w = (Resolved (Next e), w').
Proof.
  intros He Hn Hfail. rewrite (createUser_present _ _ _ He Hn).
  now rewrite (try_catch_rejected _ _ _ _ _ (bind_rejected _ _ _ _ _ Hfail)).
Qed.

(** In [loginUser] the rejection of the lookup is the rejection of the
    handler: [next] is not called. *)
Lemma loginUser_failure_escapes request w e w' :
  Js.truthy (email request) = true ->
  Js.truthy (password request) = true ->
  usersService.getUserByEmail svc (email request) w = (Rejected e, w') ->
  UsersController.loginUser svc pw request w = (Rejected e, w').
Proof.
  intros He Hp Hfail. rewrite (loginUser_present _ He Hp).
  now rewrite (bind_rejected _ _ _ _ _ Hfail).
Qed.

End Login.

(** ** Update *)

Section Update.
Context {W : Type}.
Variable svc : usersService.t W.

Local Abbreviation id request := (param (params request) "id").
Local Abbreviation email request := (field (body request) "email").
Local Abbreviation fullName request := (field (body request) "full_name").

Lemma updateUser_present request w user w1 :
  usersService.getUser svc (id request) w = (Resolved (Some user), w1) ->
  Js.truthy (email request) = true ->
  Js.truthy (fullName request) = true ->
  UsersController.updateUser svc request w =
  try_catch
    (taken <- await (if negb (Js.strict_eq (email request) (User.email user))
                     then usersService.emailExists svc (email request)
                     else ret false) ;;
     if taken then
       throw (errorResponder EMAIL_ALREADY_TAKEN (Some "Email already exists"))
     else
     success <- await usersService.updateUser svc (id request) (email request)
                        (fullName request) ;;
     if negb success then
       throw (errorResponder UNPROCESSABLE_ENTITY (Some "Failed to update user"))
     else
     ret (Sent 200 (Message "User updated successfully")))
    (fun error => ret (Next error)) w1.
Proof.
  intros Hget He Hn. unfold UsersController.updateUser, try_catch.
  rewrite (bind_resolved _ _ _ _ _ Hget). now rewrite He, Hn.
Qed.

(** C5. For an existing user and a request with email and full name
    present: a new email that differs from the user's current one and is
    already registered is answered with EMAIL_ALREADY_TAKEN and nothing is
    persisted; a new email equal to the current one is persisted without
    the uniqueness check being made at all, and the update succeeds when
    persistence does. *)
Theorem updateUser_email_uniqueness request w user w1 :
  usersService.getUser svc (id request) w = (Resolved (Some user), w1) ->
  Js.truthy (email request) = true ->
  Js.truthy (fullName request) = true ->
  (forall w2,
   Js.strict_eq (email request) (User.email user) = false ->
   usersService.emailExists svc (email request) w1 = (Resolved true, w2) ->
   UsersController.updateUser svc request w =
   (Resolved (Next (AppError EMAIL_ALREADY_TAKEN (Some "Email already exists"))), w2))
  /\
  (forall w2,
   Js.strict_eq (email request) (User.email user) = true ->
   usersService.updateUser svc (id request) (email request) (fullName request) w1 =
     (Resolved true, w2) ->
   UsersController.updateUser svc request w =
   (Resolved (Sent 200 (Message "User updated successfully")), w2)).
Proof.
  intros Hget He Hn. rewrite (updateUser_present _ _ _ _ Hget He Hn). split.
  - intros w2 Hneq Hx. unfold try_catch, bind. rewrite Hneq. cbn [negb].
    now rewrite Hx.
  - intros w2 Heq Hsave. unfold try_catch, bind. rewrite Heq. cbn [negb ret].
    now rewrite Hsave.
Qed.

(** The controller reaches the world through [getUser], [emailExists] and
    [updateUser] only: what these three preserve, the handler preserves. *)
Lemma updateUser_frame (P : W -> Prop) request w :
  (forall i v, P v -> P (snd (usersService.getUser svc i v))) ->
  (forall e v, P v -> P (snd (usersService.emailExists svc e v))) ->
  (forall i e n v, P v -> P (snd (usersService.updateUser svc i e n v))) ->
  P w -> P (snd (UsersController.updateUser svc request w)).
Proof.
  intros Hget Hexists Hupdate Hw.
  unfold UsersController.updateUser, try_catch, bind, throw, ret.
  specialize (Hget (id request) w Hw).
  destruct (usersService.getUser svc (id request) w) as [[[user |] | e] w1];
    cbn in Hget |- *; try exact Hget.
  destruct (negb (Js.truthy (email request))); [exact Hget |].
  destruct (negb (Js.truthy (fullName request))); [exact Hget |].
  assert (Hw2 : P (snd ((if negb (Js.strict_eq (email request) (User.email user))
                         then usersService.emailExists svc (email request)
                         else fun v => (Resolved false, v)) w1))).
  { destruct (negb (Js.strict_eq (email request) (User.email user)));
      [apply Hexists |]; exact Hget. }
  destruct ((if negb (Js.strict_eq (email request) (User.email user))
             then usersService.emailExists svc (email request)
             else fun v => (Resolved false, v)) w1) as [[[|] | e] w2];
    cbn in Hw2 |- *; try exact Hw2.
  specialize (Hupdate (id request) (email request) (fullName request) w2 Hw2).
  destruct (usersService.updateUser svc (id request) (email request)
              (fullName request) w2) as [[[|] | e] w3];
    cbn in Hupdate |- *; exact Hupdate.
Qed.

End Update.

(** ** The service over the store *)

Lemma storage_up {A} (op : Store -> A * Store) s :
  outage s = None -> storage op s = (Resolved (fst (op s)), snd (op s)).
Proof. intros Hup. unfold storage. rewrite Hup. now destruct (op s). Qed.

Lemma storage_down {A} (op : Store -> A * Store) s e :
  outage s = Some e -> storage op s = (Rejected e, s).
Proof. intros Hdown. unfold storage. now rewrite Hdown. Qed.

Lemma same_value_string_refl e : Js.same_value (Js.Str e) (Js.Str e) = true.
Proof. cbn. apply String.eqb_refl. Qed.

Lemma has_email_unused e (l : list User.t) :
  Forall (fun u => User.email u <> Js.Str e) l ->
  List.find (usersRepository.has_email (Js.Str e)) l = None.
Proof.
  induction 1 as [| u l Hu _ IH]; [reflexivity |].
  cbn. unfold usersRepository.has_email at 1.
  destruct (User.email u) as [| | | | x |] eqn:Hmail; cbn; try exact IH.
  destruct (String.eqb_spec x e) as [-> | _]; [congruence | exact IH].
Qed.

Lemma find_last {A} (f : A -> bool) (l : list A) (x : A) :
  List.find f l = None -> f x = true -> List.find f (l ++ [x]) = Some x.
Proof.
  intros Hnone Hx. induction l as [| y l IH]; cbn in *.
  - now rewrite Hx.
  - destruct (f y); [discriminate | now apply IH].
Qed.

Lemma find_existsb {A} (f : A -> bool) (l : list A) :
  existsb f l = bool_decide (is_Some (List.find f l)).
Proof.
  induction l as [| y l IH]; cbn; [reflexivity |].
  destruct (f y); cbn; [reflexivity | exact IH].
Qed.

(** Another user holding the email makes [emailExists] answer [true]. *)
Lemma emailExists_other_user {E} e (other : User.t) s (ent : E) :
  outage s = None ->
  In other (users s) ->
  User.email other = Js.Str e ->
  usersService.emailExists service (Js.Str e) (s, ent) = (Resolved true, (s, ent)).
Proof.
  intros Hup Hin Hmail. cbn. unfold on_store, usersServiceModel.emailExists, bind.
  cbn. unfold usersRepository.getUserByEmail. rewrite (storage_up _ _ Hup). cbn.
  destruct (List.find (usersRepository.has_email (Js.Str e)) (users s)) eqn:Hfind.
  - reflexivity.
  - exfalso. apply (find_none _ _ Hfind) in Hin.
    unfold usersRepository.has_email in Hin. rewrite Hmail in Hin.
    now rewrite same_value_string_refl in Hin.
Qed.

(** *** What an update leaves alone *)

Lemma update_first_passwords i e n (l : list User.t) :
  map User.password (usersRepository.update_first i e n l) = map User.password l /\
  map User.id (usersRepository.update_first i e n l) = map User.id l.
Proof.
  induction l as [| u l [IHp IHi]]; [split; reflexivity |].
  cbn. destruct (usersRepository.has_id i u); cbn; [split; reflexivity |].
  now rewrite IHp, IHi.
Qed.

Lemma update_first_blank i e n (l : list User.t) :
  map blank (usersRepository.update_first i e n l) =
  usersRepository.update_first i e n (map blank l).
Proof.
  induction l as [| u l IH]; [reflexivity |].
  cbn. change (usersRepository.has_id i (blank u)) with (usersRepository.has_id i u).
  destruct (usersRepository.has_id i u); cbn; [reflexivity | now rewrite IH].
Qed.

Lemma find_blank (f : User.t -> bool) (l : list User.t) :
  (forall u, f (blank u) = f u) ->
  List.find f (map blank l) = option_map blank (List.find f l).
Proof.
  intros Hf. induction l as [| u l IH]; [reflexivity |].
  cbn. rewrite Hf. now destruct (f u).
Qed.

(** [updateUser] over the store, in one piece. *)
Lemma updateUser_on_store {E} request s (ent : E) :
  UsersController.updateUser service request (s, ent) =
  match outage s with
  | Some e => (Resolved (Next e), (s, ent))
  | None =>
      match List.find (usersRepository.has_id (param (params request) "id")) (users s) with
      | None =>
          (Resolved (Next (AppError UNPROCESSABLE_ENTITY (Some "User not found"))),
           (s, ent))
      | Some user =>
          if negb (Js.truthy (field (body request) "email")) then
            (Resolved (Next (AppError VALIDATION_ERROR (Some "Email is required"))),
             (s, ent))
          else if negb (Js.truthy (field (body request) "full_name")) then
            (Resolved (Next (AppError VALIDATION_ERROR (Some "Full name is required"))),
             (s, ent))
          else if negb (Js.strict_eq (field (body request) "email") (User.email user))
                  && bool_decide (is_Some (List.find
                       (usersRepository.has_email (field (body request) "email"))
                       (users s)))
          then
            (Resolved (Next (AppError EMAIL_ALREADY_TAKEN (Some "Email already exists"))),
             (s, ent))
          else
            (Resolved (Sent 200 (Message "User updated successfully")),
             (usersRepository.with_users s
                (usersRepository.update_first (param (params request) "id")
                   (field (body request) "email") (field (body request) "full_name")
                   (users s)),
              ent))
      end
  end.
Proof.
  unfold UsersController.updateUser.
  generalize (param (params request) "id") (field (body request) "email")
    (field (body request) "full_name").
  intros i e n. unfold try_catch, bind, throw, ret. cbn.
  unfold on_store, usersServiceModel.getUser, usersRepository.getUser. cbn.
  destruct (outage s) as [err |] eqn:Hout.
  - now rewrite (storage_down _ _ _ Hout).
  - rewrite (storage_up _ _ Hout). cbn.
    destruct (List.find (usersRepository.has_id i) (users s)) as [user |] eqn:Hfind;
      [| reflexivity].
    destruct (negb (Js.truthy e)); [reflexivity |].
    destruct (negb (Js.truthy n)); [reflexivity |].
    assert (Hsave : usersServiceModel.updateUser i e n s =
                    (Resolved true,
                     usersRepository.with_users s
                       (usersRepository.update_first i e n (users s)))).
    { unfold usersServiceModel.updateUser, usersRepository.updateUser.
      rewrite (storage_up _ _ Hout). cbn. rewrite find_existsb, Hfind.
      reflexivity. }
    destruct (negb (Js.strict_eq e (User.email user))); cbn.
    + unfold usersServiceModel.emailExists, bind, usersRepository.getUserByEmail.
      rewrite (storage_up _ _ Hout). cbn.
      destruct (List.find (usersRepository.has_email e) (users s)); cbn;
        [reflexivity | now rewrite Hsave].
    + now rewrite Hsave.
Qed.

(** C9. Whatever the request and whether the update goes through or not,
    the users keep their identities and their stored hashes, and the reply
    and the rest of the resulting store do not depend on the hashes: the
    update neither rewrites nor reads them. *)
Theorem updateUser_leaves_passwords {E} request s (ent : E) :
  map User.password (users (fst (snd (UsersController.updateUser service request (s, ent)))))
    = map User.password (users s) /\
  map User.id (users (fst (snd (UsersController.updateUser service request (s, ent)))))
    = map User.id (users s) /\
  (forall s', blanked s' = blanked s ->
     fst (UsersController.updateUser service request (s', ent)) =
     fst (UsersController.updateUser service request (s, ent)) /\
     blanked (fst (snd (UsersController.updateUser service request (s', ent)))) =
     blanked (fst (snd (UsersController.updateUser service request (s, ent))))).
Proof.
  assert (Hkeep : forall t : Store,
    map User.password (users (fst (snd (UsersController.updateUser service request (t, ent)))))
      = map User.password (users t) /\
    map User.id (users (fst (snd (UsersController.updateUser service request (t, ent)))))
      = map User.id (users t)).
  { intros t. rewrite updateUser_on_store.
    repeat match goal with
           | |- context [match ?x with _ => _ end] => destruct x
           end; cbn; try (split; reflexivity).
    apply update_first_passwords. }
  split; [apply Hkeep | split; [apply Hkeep |]].
  intros s' Hsame. rewrite !updateUser_on_store.
  assert (Hout : outage s' = outage s) by exact (f_equal outage Hsame).
  assert (Husers : map blank (users s') = map blank (users s))
    by exact (f_equal users Hsame).
  set (i := param (params request) "id").
  set (e := field (body request) "email").
  set (n := field (body request) "full_name").
  assert (Hid : List.find (usersRepository.has_id i) (map blank (users s')) =
                List.find (usersRepository.has_id i) (map blank (users s)))
    by now rewrite Husers.
  assert (Hmail : List.find (usersRepository.has_email e) (map blank (users s')) =
                  List.find (usersRepository.has_email e) (map blank (users s)))
    by now rewrite Husers.
  rewrite !find_blank in Hid, Hmail by reflexivity.
  rewrite Hout. destruct (outage s) eqn:Hup; [split; [reflexivity | exact Hsame] |].
  destruct (List.find (usersRepository.has_id i) (users s')) as [u' |],
           (List.find (usersRepository.has_id i) (users s)) as [u |];
    try discriminate; [| split; [reflexivity | exact Hsame]].
  assert (Hu : User.email u' = User.email u) by (injection Hid; auto).
  rewrite Hu.
  destruct (negb (Js.truthy e)); [split; [reflexivity | exact Hsame] |].
  destruct (negb (Js.truthy n)); [split; [reflexivity | exact Hsame] |].
  assert (Hsome : bool_decide (is_Some (List.find (usersRepository.has_email e) (users s'))) =
                  bool_decide (is_Some (List.find (usersRepository.has_email e) (users s)))).
  { destruct (List.find (usersRepository.has_email e) (users s')),
             (List.find (usersRepository.has_email e) (users s));
      try discriminate; reflexivity. }
  rewrite Hsome.
  destruct (negb (Js.strict_eq e (User.email u)) &&
            bool_decide (is_Some (List.find (usersRepository.has_email e) (users s))));
    [split; [reflexivity | exact Hsame] |].
  split; [reflexivity |]. cbn. unfold blanked, usersRepository.with_users. cbn.
  assert (Hnext : next_id s' = next_id s) by exact (f_equal next_id Hsame).
  assert (Hbooks : books s' = books s) by exact (f_equal books Hsame).
  now rewrite !update_first_blank, Husers, Hnext, Hbooks, Hout, Hup.
Qed.

(** ** Registration followed by login, over the store *)

Lemma field_present (o : gmap string Js.Val) name v :
  o !! name = Some v -> field o name = v.
Proof. intros H. unfold field. now rewrite H. Qed.

Lemma truthy_string s : s <> EmptyString -> Js.truthy (Js.Str s) = true.
Proof. intros Hs. cbn. now apply negb_true_iff, String.eqb_neq. Qed.

(** C3. A registration with an email no user has yet, a password of at
    least 8 characters equal to its confirmation and a non-empty full name
    is answered, when the hashing and the store succeed, with 201 and a
    message only; a login with the same email and password right after it
    is answered with 200. *)
Theorem register_then_login {E} (h : passwords.t E)
    (request login : Request) (s : Store) (ent ent' : E) (e p n hashed : string) :
  hasher_sound h ->
  body request !! "email" = Some (Js.Str e) ->
  body request !! "password" = Some (Js.Str p) ->
  body request !! "confirm_password" = Some (Js.Str p) ->
  body request !! "full_name" = Some (Js.Str n) ->
  e <> EmptyString ->
  n <> EmptyString ->
  (8 <= String.length p)%nat ->
  outage s = None ->
  Forall (fun u => User.email u <> Js.Str e) (users s) ->
  passwords.hashPassword h (Js.Str p) ent = (Resolved hashed, ent') ->
  body login !! "email" = Some (Js.Str e) ->
  body login !! "password" = Some (Js.Str p) ->
  exists w',
    UsersController.createUser service (hasher h) request (s, ent) =
      (Resolved (Sent 201 (Message "User created successfully")), w') /\
    exists w'',
      UsersController.loginUser service (hasher h) login w' =
        (Resolved (Sent 200 (Message "Login successful")), w'').
Proof.
  intros Hsound Hmail Hpass Hconf Hname He Hn Hlong Hup Hfresh Hhash Hlmail Hlpass.
  apply field_present in Hmail, Hpass, Hconf, Hname, Hlmail, Hlpass.
  assert (Hp : p <> EmptyString) by (intros ->; cbn in Hlong; lia).
  set (user := User.make (pretty (next_id s)) (Js.Str e) (Js.Str n) hashed).
  set (s1 := {| users := users s ++ [user]; books := books s;
                next_id := N.succ (next_id s); outage := outage s |}).
  destruct (Hsound _ _ _ _ Hhash ent') as [ent'' Hmatch].
  exists (s1, ent'). split.
  - apply (createUser_accepted service (hasher h) request (s, ent) (s, ent)
             (Some (String.length p)) hashed (s, ent') true (s1, ent')).
    + rewrite Hmail. now apply truthy_string.
    + rewrite Hname. now apply truthy_string.
    + rewrite Hmail. cbn. unfold on_store, usersServiceModel.emailExists, bind.
      cbn. unfold usersRepository.getUserByEmail. rewrite (storage_up _ _ Hup).
      cbn. now rewrite (has_email_unused _ _ Hfresh).
    + now rewrite Hpass.
    + unfold Js.lt_number. now apply Nat.ltb_ge.
    + rewrite Hpass, Hconf. cbn. apply String.eqb_refl.
    + rewrite Hpass. cbn. unfold on_hasher. cbn. now rewrite Hhash.
    + rewrite Hmail, Hname. cbn. unfold on_store, usersServiceModel.createUser,
        usersRepository.createUser. cbn. now rewrite (storage_up _ _ Hup).
  - exists (s1, ent'').
    apply (loginUser_checked service (hasher h) login (s1, ent') (s1, ent') user true).
    + rewrite Hlmail. now apply truthy_string.
    + rewrite Hlpass. now apply truthy_string.
    + rewrite Hlmail. cbn. unfold on_store, usersServiceModel.getUserByEmail,
        usersRepository.getUserByEmail. cbn.
      rewrite (storage_up _ s1 Hup). cbn.
      rewrite (find_last _ _ user (has_email_unused _ _ Hfresh)); [reflexivity |].
      unfold usersRepository.has_email. apply same_value_string_refl.
    + rewrite Hlpass. cbn. unfold on_hasher. cbn. now rewrite Hmatch.
Qed.

(** ** Pages of books *)

Lemma getBooks_on_store offset limit s :
  outage s = None ->
  booksRepository.getBooks offset limit s = (Resolved (page offset limit (books s)), s).
Proof.
  intros Hup. unfold booksRepository.getBooks, Books.exec.
  now rewrite (storage_up _ _ Hup).
Qed.

Lemma page_beyond {A} offset limit (docs : list A) :
  Z.of_nat (length docs) <= offset -> page offset limit docs = [].
Proof.
  intros Hbeyond. unfold page. rewrite drop_ge by lia. apply take_nil.
Qed.

(** C8. While the store answers: with offset 0 and limit 10, [getBooks]
    returns the first 10 books in storage order, or all of them when there
    are fewer; with an offset at or beyond the size of the collection it
    returns the empty sequence, and the handler answers 200 with it. *)
Theorem getBooks_pagination (s : Store) :
  outage s = None ->
  (booksRepository.getBooks 0 10 s = (Resolved (take 10 (books s)), s) /\
   (length (take 10 (books s)) <= 10)%nat) /\
  (forall offset limit,
     Z.of_nat (length (books s)) <= offset ->
     booksRepository.getBooks offset limit s = (Resolved [], s)) /\
  (forall request,
     Js.or_default (Js.parseInt (Js.param_text (query request !! "offset"))) 0 = 0 ->
     Js.or_default (Js.parseInt (Js.param_text (query request !! "limit"))) 10 = 10 ->
     BooksController.getBooks request s =
     (Resolved (Sent 200 (BooksJson (take 10 (books s)))), s)) /\
  (forall request,
     Z.of_nat (length (books s)) <=
       Js.or_default (Js.parseInt (Js.param_text (query request !! "offset"))) 0 ->
     BooksController.getBooks request s = (Resolved (Sent 200 (BooksJson [])), s)).
Proof.
  intros Hup. repeat split.
  - now rewrite (getBooks_on_store _ _ _ Hup).
  - rewrite length_take. lia.
  - intros offset limit Hbeyond.
    now rewrite (getBooks_on_store _ _ _ Hup), page_beyond.
  - intros request Hoffset Hlimit. unfold BooksController.getBooks.
    rewrite Hoffset, Hlimit. unfold try_catch, bind, booksService.getBooks.
    now rewrite (getBooks_on_store _ _ _ Hup).
  - intros request Hbeyond. unfold BooksController.getBooks.
    unfold try_catch, bind, booksService.getBooks.
    now rewrite (getBooks_on_store _ _ _ Hup), page_beyond.
Qed.

(** ** A storage failure during login *)

(** C7. While the store is unreachable, a registration hands the failure
    of the store to [next] unchanged, and so do the other handlers written
    inside [try]/[catch]; a login with email and password present rejects
    with it instead, and [next] is not called. *)
Theorem loginUser_storage_failure_escapes :
  UsersController.createUser service (hasher demo_hasher) register_carol
    (store_down, 57%nat) =
  (Resolved (Next (Failure "MongoNetworkError" "connection refused")),
   (store_down, 57%nat)) /\
  UsersController.loginUser service (hasher demo_hasher) login_carol
    (store_down, 57%nat) =
  (Rejected (Failure "MongoNetworkError" "connection refused"),
   (store_down, 57%nat)).
Proof. split; vm_compute; reflexivity. Qed.

(** ** The statements at sample requests *)

Lemma demo_hasher_sound : hasher_sound demo_hasher.
Proof.
  intros password e hashed e' Hhash e1. exists e1.
  destruct password as [| | | | s |]; cbn in Hhash; try discriminate.
  injection Hhash as <- _. cbn. now rewrite String.eqb_refl.
Qed.

Lemma createUser_first_failing_check_wins_witness :
  UsersController.createUser service (hasher demo_hasher) register_no_email
    (demo_store, 57%nat) =
  (Resolved (Next (AppError VALIDATION_ERROR (Some "Email is required"))),
   (demo_store, 57%nat)) /\
  UsersController.createUser service (hasher demo_hasher) register_no_name
    (demo_store, 57%nat) =
  (Resolved (Next (AppError VALIDATION_ERROR (Some "Full name is required"))),
   (demo_store, 57%nat)) /\
  UsersController.createUser service (hasher demo_hasher) register_taken
    (demo_store, 57%nat) =
  (Resolved (Next (AppError EMAIL_ALREADY_TAKEN (Some "Email already exists"))),
   (demo_store, 57%nat)) /\
  UsersController.createUser service (hasher demo_hasher) register_short
    (demo_store, 57%nat) =
  (Resolved (Next (AppError VALIDATION_ERROR
                     (Some "Password must be at least 8 characters long"))),
   (demo_store, 57%nat)) /\
  UsersController.createUser service (hasher demo_hasher) register_mismatch
    (demo_store, 57%nat) =
  (Resolved (Next (AppError VALIDATION_ERROR
                     (Some "Password and confirm password do not match"))),
   (demo_store, 57%nat)) /\
  fst (UsersController.createUser service (hasher demo_hasher) register_carol
         (demo_store, 57%nat)) =
  Resolved (Sent 201 (Message "User created successfully")).
Proof.
  split; [| split; [| split; [| split; [| split]]]].
  - apply (createUser_first_failing_check_wins service (hasher demo_hasher)
             register_no_email (demo_store, 57%nat)).
    vm_compute; reflexivity.
  - apply (createUser_first_failing_check_wins service (hasher demo_hasher)
             register_no_name (demo_store, 57%nat)); vm_compute; reflexivity.
  - apply (createUser_first_failing_check_wins service (hasher demo_hasher)
             register_taken (demo_store, 57%nat)); vm_compute; reflexivity.
  - apply (proj1 (proj2 (proj2 (proj2
             (createUser_first_failing_check_wins service (hasher demo_hasher)
                register_short (demo_store, 57%nat)))))
             (demo_store, 57%nat) (Some 5%nat)); vm_compute; reflexivity.
  - apply (proj1 (proj2 (proj2 (proj2 (proj2
             (createUser_first_failing_check_wins service (hasher demo_hasher)
                register_mismatch (demo_store, 57%nat))))))
             (demo_store, 57%nat) (Some 10%nat)); vm_compute; reflexivity.
  - rewrite (proj2 (proj2 (proj2 (proj2 (proj2
             (createUser_first_failing_check_wins service (hasher demo_hasher)
                register_carol (demo_store, 57%nat))))))
             (demo_store, 57%nat) (Some 10%nat) "9longenough" (demo_store, 58%nat) true
             (snd (UsersController.createUser service (hasher demo_hasher)
                     register_carol (demo_store, 57%nat))));
      vm_compute; reflexivity.
Defined.

Lemma loginUser_failures_indistinguishable_witness :
  fst (UsersController.loginUser service (hasher demo_hasher) login_nobody
         (demo_store, 57%nat)) =
  fst (UsersController.loginUser service (hasher demo_hasher) login_alice_wrong
         (demo_store, 57%nat)) /\
  fst (UsersController.loginUser service (hasher demo_hasher) login_nobody
         (demo_store, 57%nat)) =
  Resolved (Next (AppError UNPROCESSABLE_ENTITY (Some "Invalid email or password"))).
Proof.
  apply (loginUser_failures_indistinguishable service (hasher demo_hasher)
           login_nobody login_alice_wrong
           (demo_store, 57%nat) (demo_store, 57%nat)
           (demo_store, 57%nat) (demo_store, 57%nat) (demo_store, 57%nat) alice);
    vm_compute; reflexivity.
Defined.

Lemma register_then_login_witness :
  exists w',
    UsersController.createUser service (hasher demo_hasher) register_carol
      (demo_store, 57%nat) =
      (Resolved (Sent 201 (Message "User created successfully")), w') /\
    exists w'',
      UsersController.loginUser service (hasher demo_hasher) login_carol w' =
        (Resolved (Sent 200 (Message "Login successful")), w'').
Proof.
  apply (register_then_login demo_hasher register_carol login_carol demo_store
           57%nat 58%nat "carol@example.com" "longenough" "Carol" "9longenough").
  - exact demo_hasher_sound.
  - vm_compute; reflexivity.
  - vm_compute; reflexivity.
  - vm_compute; reflexivity.
  - vm_compute; reflexivity.
  - discriminate.
  - discriminate.
  - vm_compute. lia.
  - reflexivity.
  - repeat constructor; discriminate.
  - vm_compute; reflexivity.
  - vm_compute; reflexivity.
  - vm_compute; reflexivity.
Defined.

Lemma createUser_short_password_witness :
  (String.length "short" < 8)%nat /\
  UsersController.createUser service (hasher demo_hasher) register_short
    (demo_store, 57%nat) =
  (Resolved (Next (AppError VALIDATION_ERROR
                     (Some "Password must be at least 8 characters long"))),
   (demo_store, 57%nat)).
Proof.
  split; [vm_compute; lia |].
  apply (createUser_short_password service (hasher demo_hasher) register_short
           (demo_store, 57%nat) (demo_store, 57%nat) 5%nat);
    try (vm_compute; reflexivity).
  vm_compute; lia.
Defined.

Lemma updateUser_email_uniqueness_witness :
  UsersController.updateUser (W := Store * nat) service bob_takes_alice
    (demo_store, 57%nat) =
  (Resolved (Next (AppError EMAIL_ALREADY_TAKEN (Some "Email already exists"))),
   (demo_store, 57%nat)) /\
  fst (UsersController.updateUser (W := Store * nat) service rename_bob
         (demo_store, 57%nat)) =
  Resolved (Sent 200 (Message "User updated successfully")).
Proof.
  split.
  - apply (proj1 (updateUser_email_uniqueness service bob_takes_alice
                    (demo_store, 57%nat) bob (demo_store, 57%nat)
                    ltac:(vm_compute; reflexivity) ltac:(vm_compute; reflexivity)
                    ltac:(vm_compute; reflexivity)));
      vm_compute; reflexivity.
  - rewrite (proj2 (updateUser_email_uniqueness service rename_bob
                    (demo_store, 57%nat) bob (demo_store, 57%nat)
                    ltac:(vm_compute; reflexivity) ltac:(vm_compute; reflexivity)
                    ltac:(vm_compute; reflexivity))
               (snd (UsersController.updateUser (W := Store * nat) service rename_bob
                       (demo_store, 57%nat))));
      vm_compute; reflexivity.
Defined.

Lemma getBooks_pagination_witness :
  BooksController.getBooks (get []) demo_store =
  (Resolved (Sent 200 (BooksJson (take 10 shelf))), demo_store) /\
  BooksController.getBooks (get [("offset", "12"); ("limit", "5")]) demo_store =
  (Resolved (Sent 200 (BooksJson [])), demo_store).
Proof.
  split.
  - apply (getBooks_pagination demo_store); vm_compute; reflexivity.
  - apply (getBooks_pagination demo_store); [reflexivity |].
    vm_compute. discriminate.
Defined.

Lemma updateUser_leaves_passwords_witness :
  blanked rehashed_store = blanked demo_store /\
  fst (UsersController.updateUser service rename_bob (rehashed_store, 57%nat)) =
  fst (UsersController.updateUser service rename_bob (demo_store, 57%nat)) /\
  map User.password
    (users (fst (snd (UsersController.updateUser service rename_bob
                        (demo_store, 57%nat))))) =
  ["7correct horse"; "8battery staple"].
Proof.
  split; [reflexivity |]. split.
  - apply (updateUser_leaves_passwords rename_bob demo_store 57%nat).
    reflexivity.
  - apply (updateUser_leaves_passwords rename_bob demo_store 57%nat).
Defined.

Lemma createUser_password_absent_witness :
  body register_no_password !! "password" = None /\
  UsersController.createUser service (hasher demo_hasher) register_no_password
    (demo_store, 57%nat) =
  (Resolved
     (Next (TypeError "Cannot read properties of undefined (reading 'length')")),
   (demo_store, 57%nat)).
Proof.
  split; [vm_compute; reflexivity |].
  apply (createUser_password_absent service (hasher demo_hasher)
           register_no_password (demo_store, 57%nat) (demo_store, 57%nat));
    vm_compute; reflexivity.
Defined.

(** * Further properties of the handlers *)

(** ** Reading a reply backwards *)

Section Backwards.
Context {W A B : Type}.

Lemma bind_inv (m : Async W A) (k : A -> Async W B) w r :
  bind m k w = r ->
  (exists a w1, m w = (Resolved a, w1) /\ k a w1 = r) \/
  (exists e w1, m w = (Rejected e, w1) /\ r = (Rejected e, w1)).
Proof.
  unfold bind. destruct (m w) as [[a | e] w1]; intros <-; eauto.
Qed.

End Backwards.

Lemma guarded_sent_inv {W} (body : Async W Reply) w status json w' :
  try_catch body (fun error => ret (Next error)) w = (Resolved (Sent status json), w') ->
  body w = (Resolved (Sent status json), w').
Proof.
  unfold try_catch, ret. destruct (body w) as [[reply | e] w1]; congruence.
Qed.

Lemma guarded_next_inv {W} (body : Async W Reply) w e w' :
  try_catch body (fun error => ret (Next error)) w = (Resolved (Next e), w') ->
  body w = (Resolved (Next e), w') \/ body w = (Rejected e, w').
Proof.
  unfold try_catch, ret. destruct (body w) as [[reply | e1] w1]; intros H;
    injection H as -> ->; auto.
Qed.

(** ** Decimal numerals through [parseInt] *)

Lemma digit_of_pretty_char d :
  (d < 10)%N -> Js.digit_of (pretty_N_char d) = Some (Z.of_N d).
Proof.
  intros Hd.
  assert (Hcases : (d = 0 \/ d = 1 \/ d = 2 \/ d = 3 \/ d = 4 \/ d = 5 \/
                    d = 6 \/ d = 7 \/ d = 8 \/ d = 9)%N) by lia.
  repeat (destruct Hcases as [-> | Hcases]; [reflexivity |]).
  now subst.
Qed.

Lemma digits_pretty_go x s acc :
  default 0 acc = 0 -> (0 < x)%N ->
  Js.digits (pretty_N_go x s) acc = Js.digits s (Some (Z.of_N x)).
Proof.
  revert s acc. induction (N.lt_wf_0 x) as [x _ IH]. intros s acc Hacc Hx.
  rewrite pretty_N_go_step by exact Hx.
  assert (Hmod : (x `mod` 10 < 10)%N) by (apply N.mod_lt; lia).
  assert (Hsplit : (x = 10 * (x `div` 10) + x `mod` 10)%N)
    by (apply N.div_mod; lia).
  destruct (decide (x `div` 10 = 0)%N) as [Hzero | Hpos].
  - rewrite Hzero, pretty_N_go_0. cbn [Js.digits].
    rewrite (digit_of_pretty_char _ Hmod), Hacc. rewrite Hzero in Hsplit.
    replace (10 * 0 + Z.of_N (x `mod` 10)) with (Z.of_N x) by lia. reflexivity.
  - rewrite (IH (x `div` 10)%N); [| apply N.div_lt; lia | exact Hacc | lia].
    cbn [Js.digits default from_option id]. rewrite (digit_of_pretty_char _ Hmod).
    unfold id.
    replace (10 * Z.of_N (x `div` 10) + Z.of_N (x `mod` 10)) with (Z.of_N x) by lia.
    reflexivity.
Qed.

Lemma pretty_go_head x s :
  (0 < x)%N ->
  exists d rest, (d < 10)%N /\ pretty_N_go x s = String (pretty_N_char d) rest.
Proof.
  revert s. induction (N.lt_wf_0 x) as [x _ IH]. intros s Hx.
  rewrite pretty_N_go_step by exact Hx.
  destruct (decide (x `div` 10 = 0)%N) as [Hzero | Hpos].
  - rewrite Hzero, pretty_N_go_0. exists (x `mod` 10)%N, s.
    split; [apply N.mod_lt; lia | reflexivity].
  - apply IH; [apply N.div_lt; lia | now apply N.neq_0_lt_0].
Qed.

(** [parseInt(String(n), 10)] is [n] for every natural number [n]. *)
Lemma parseInt_pretty (n : N) : Js.parseInt (pretty n) = Some (Z.of_N n).
Proof.
  unfold pretty, pretty_N. destruct (decide (n = 0%N)) as [-> | Hn]; [reflexivity |].
  assert (Hpos : (0 < n)%N) by lia.
  destruct (pretty_go_head n EmptyString Hpos) as (d & rest & Hd & Hform).
  assert (Hrun : Js.parseInt (String (pretty_N_char d) rest) =
                 Js.digits (String (pretty_N_char d) rest) None).
  { assert (Hcases : (d = 0 \/ d = 1 \/ d = 2 \/ d = 3 \/ d = 4 \/ d = 5 \/
                      d = 6 \/ d = 7 \/ d = 8 \/ d = 9)%N) by lia.
    repeat (destruct Hcases as [-> | Hcases]; [reflexivity |]).
    now subst. }
  rewrite Hform, Hrun, <- Hform.
  now rewrite (digits_pretty_go n EmptyString None eq_refl Hpos).
Qed.

(** ** What a success, or an error, of the users handlers tells *)

Section Told.
Context {W : Type}.
Variable svc : usersService.t W.
Variable pw : passwords.t W.

Local Abbreviation id request := (param (params request) "id").
Local Abbreviation email request := (field (body request) "email").
Local Abbreviation fullName request := (field (body request) "full_name").
Local Abbreviation password request := (field (body request) "password").
Local Abbreviation confirmPassword request := (field (body request) "confirm_password").

(** X1. [createUser] sends a response only after every check has passed:
    the status is then 201, the email and the full name are present, the
    service found the email unused, the password has no length below 8 and
    is identical to its confirmation, and the user was persisted, with
    success, under the hash the hash library gave for that password. *)
Theorem createUser_sent_only_if request w status json w' :
  UsersController.createUser svc pw request w = (Resolved (Sent status json), w') ->
  status = 201 /\
  json = Message "User created successfully" /\
  Js.truthy (email request) = true /\
  Js.truthy (fullName request) = true /\
  Js.strict_eq (password request) (confirmPassword request) = true /\
  (exists len, Js.length_of (password request) = Some len /\
               Js.lt_number len 8 = false) /\
  exists w1 hashed w2,
    usersService.emailExists svc (email request) w = (Resolved false, w1) /\
    passwords.hashPassword pw (password request) w1 = (Resolved hashed, w2) /\
    usersService.createUser svc (email request) hashed (fullName request) w2 =
      (Resolved true, w').
Proof.
  unfold UsersController.createUser.
  generalize (email request) (fullName request) (password request)
    (confirmPassword request).
  intros e n p c Hrun. apply guarded_sent_inv in Hrun.
  destruct (Js.truthy e); [| discriminate]. cbn [negb] in Hrun.
  destruct (Js.truthy n); [| discriminate]. cbn [negb] in Hrun.
  apply bind_inv in Hrun as [(taken & w1 & Hx & Hrun) | (? & ? & _ & ?)];
    [| discriminate].
  destruct taken; [discriminate |].
  apply bind_inv in Hrun as [(len & w1' & Hlen & Hrun) | (? & ? & _ & ?)];
    [| discriminate].
  unfold member_length in Hlen.
  destruct (Js.length_of p) as [len' |] eqn:Hp; [| discriminate].
  injection Hlen as -> ->.
  destruct (Js.lt_number len 8) eqn:Hlt; [discriminate |].
  destruct (Js.strict_eq p c); [| discriminate]. cbn [negb] in Hrun.
  apply bind_inv in Hrun as [(hashed & w2 & Hhash & Hrun) | (? & ? & _ & ?)];
    [| discriminate].
  apply bind_inv in Hrun as [(success & w3 & Hsave & Hrun) | (? & ? & _ & ?)];
    [| discriminate].
  destruct success; [| discriminate]. injection Hrun as <- <- <-.
  repeat (split; [reflexivity |]). split; [now exists len |].
  now exists w1', hashed, w2.
Qed.

(** X2. [loginUser] answers 200 only when the email and the password are
    present, the service knows a user under that email, and the matcher
    accepted the password against the hash stored for that very user. *)
Theorem loginUser_sent_only_if request w status json w' :
  UsersController.loginUser svc pw request w = (Resolved (Sent status json), w') ->
  status = 200 /\
  json = Message "Login successful" /\
  Js.truthy (email request) = true /\
  Js.truthy (password request) = true /\
  exists user w1,
    usersService.getUserByEmail svc (email request) w = (Resolved (Some user), w1) /\
    passwords.passwordMatched pw (password request) (User.password user) w1 =
      (Resolved true, w').
Proof.
  unfold UsersController.loginUser.
  generalize (email request) (password request). intros e p Hrun.
  destruct (Js.truthy e); [| discriminate].
  destruct (Js.truthy p); [| discriminate]. cbn [negb orb] in Hrun.
  apply bind_inv in Hrun as [(user & w1 & Hfind & Hrun) | (? & ? & _ & ?)];
    [| discriminate].
  destruct user as [user |]; [| discriminate].
  apply bind_inv in Hrun as [(valid & w2 & Hmatch & Hrun) | (? & ? & _ & ?)];
    [| discriminate].
  destruct valid; [| discriminate]. injection Hrun as <- <- <-.
  repeat (split; [reflexivity |]). now exists user, w1.
Qed.

(** X3. Whatever [loginUser] hands to [next] is one of its own two
    classified errors: the VALIDATION_ERROR, exactly when the email or the
    password is missing and then before any call of the service, or the
    UNPROCESSABLE_ENTITY "Invalid email or password". *)
Theorem loginUser_next_only_classified request w e w' :
  UsersController.loginUser svc pw request w = (Resolved (Next e), w') ->
  (e = AppError VALIDATION_ERROR (Some "Email and password are required") /\
   (Js.truthy (email request) = false \/ Js.truthy (password request) = false) /\
   w' = w) \/
  (e = AppError UNPROCESSABLE_ENTITY (Some "Invalid email or password") /\
   Js.truthy (email request) = true /\ Js.truthy (password request) = true).
Proof.
  unfold UsersController.loginUser.
  generalize (email request) (password request). intros m p Hrun.
  destruct (Js.truthy m); cbn [negb orb] in Hrun.
  - destruct (Js.truthy p); cbn [negb orb] in Hrun.
    + right. split; [| split; reflexivity].
      apply bind_inv in Hrun as [(user & w1 & _ & Hrun) | (? & ? & _ & ?)];
        [| discriminate].
      destruct user as [user |]; [| now injection Hrun as <- _].
      apply bind_inv in Hrun as [(valid & w2 & _ & Hrun) | (? & ? & _ & ?)];
        [| discriminate].
      destruct valid; [discriminate | now injection Hrun as <- _].
    + left. injection Hrun as <- <-. auto.
  - left. injection Hrun as <- <-. auto.
Qed.

(** X4. [loginUser] reaches the world through [getUserByEmail] and
    [passwordMatched] only: whatever these two preserve is preserved by a
    login, accepted or refused. *)
Theorem loginUser_frame (P : W -> Prop) request w :
  (forall m v, P v -> P (snd (usersService.getUserByEmail svc m v))) ->
  (forall p h v, P v -> P (snd (passwords.passwordMatched pw p h v))) ->
  P w -> P (snd (UsersController.loginUser svc pw request w)).
Proof.
  intros Hfind Hmatch Hw. unfold UsersController.loginUser, bind, ret.
  destruct (negb (Js.truthy (email request)) || negb (Js.truthy (password request)));
    [exact Hw |].
  specialize (Hfind (email request) w Hw).
  destruct (usersService.getUserByEmail svc (email request) w)
    as [[[user |] | e] w1]; cbn in Hfind |- *; try exact Hfind.
  specialize (Hmatch (password request) (User.password user) w1 Hfind).
  destruct (passwords.passwordMatched pw (password request) (User.password user) w1)
    as [[[|] | e] w2]; cbn in Hmatch |- *; exact Hmatch.
Qed.

End Told.

Section ToldMore.
Context {W : Type}.
Variable svc : usersService.t W.
Variable pw : passwords.t W.

Local Abbreviation id request := (param (params request) "id").
Local Abbreviation email request := (field (body request) "email").
Local Abbreviation fullName request := (field (body request) "full_name").
Local Abbreviation password request := (field (body request) "password").



(** X7. [updateUser] answers 200 only when the user exists, the email and
    the full name are present, the email is the user's own or the service
    found it unused, and the service updated, with success, exactly the
    identity, email and full name of the request. *)
Theorem updateUser_sent_only_if request w status json w' :
  UsersController.updateUser svc request w = (Resolved (Sent status json), w') ->
  status = 200 /\
  json = Message "User updated successfully" /\
  Js.truthy (email request) = true /\
  Js.truthy (fullName request) = true /\
  exists user w1 w2,
    usersService.getUser svc (id request) w = (Resolved (Some user), w1) /\
    (Js.strict_eq (email request) (User.email user) = true /\ w2 = w1 \/
     Js.strict_eq (email request) (User.email user) = false /\
     usersService.emailExists svc (email request) w1 = (Resolved false, w2)) /\
    usersService.updateUser svc (id request) (email request) (fullName request) w2 =
      (Resolved true, w').
Proof.
  unfold UsersController.updateUser.
  generalize (id request) (email request) (fullName request).
  intros i m n Hrun. apply guarded_sent_inv in Hrun.
  apply bind_inv in Hrun as [(user & w1 & Hget & Hrun) | (? & ? & _ & ?)];
    [| discriminate].
  destruct user as [user |]; [| discriminate].
  destruct (Js.truthy m); [| discriminate]. cbn [negb] in Hrun.
  destruct (Js.truthy n); [| discriminate]. cbn [negb] in Hrun.
  apply bind_inv in Hrun as [(taken & w2 & Hx & Hrun) | (? & ? & _ & ?)];
    [| discriminate].
  destruct taken; [discriminate |].
  apply bind_inv in Hrun as [(success & w3 & Hsave & Hrun) | (? & ? & _ & ?)];
    [| discriminate].
  destruct success; [| discriminate]. injection Hrun as <- <- <-.
  repeat (split; [reflexivity |]). exists user, w1, w2.
  split; [exact Hget | split; [| exact Hsave]].
  destruct (Js.strict_eq m (User.email user)); cbn [negb] in Hx.
  - left. now injection Hx as <-.
  - right. auto.
Qed.

(** X8. [getUser] answers 200 with a user exactly when the service returned
    that user. What it hands to [next] is "User not found", when the
    service returned no user, or else the error the service rejected
    with. *)
Theorem getUser_reply request w w1 :
  (forall user,
     UsersController.getUser svc request w = (Resolved (Sent 200 (UserJson user)), w1)
     <-> usersService.getUser svc (id request) w = (Resolved (Some user), w1)) /\
  (forall e,
     UsersController.getUser svc request w = (Resolved (Next e), w1) ->
     e = AppError UNPROCESSABLE_ENTITY (Some "User not found") /\
     usersService.getUser svc (id request) w = (Resolved None, w1) \/
     usersService.getUser svc (id request) w = (Rejected e, w1)).
Proof.
  unfold UsersController.getUser, try_catch, bind, throw, ret, errorResponder.
  destruct (usersService.getUser svc (id request) w) as [[[found |] | e0] w2].
  - split; [intros user; split; congruence | discriminate].
  - split; [intros user; split; discriminate |].
    intros e Hrun. left. inversion Hrun. auto.
  - split; [intros user; split; discriminate |].
    intros e Hrun. right. inversion Hrun. reflexivity.
Qed.

(** X9. [deleteUser] answers 200 exactly when the service reports a
    deletion. What it hands to [next] is "Failed to delete user", when the
    service reports none, or else the error the service rejected with. *)
Theorem deleteUser_reply request w w1 :
  (UsersController.deleteUser svc request w =
     (Resolved (Sent 200 (Message "User deleted successfully")), w1)
   <-> usersService.deleteUser svc (id request) w = (Resolved true, w1)) /\
  (forall e,
     UsersController.deleteUser svc request w = (Resolved (Next e), w1) ->
     e = AppError UNPROCESSABLE_ENTITY (Some "Failed to delete user") /\
     usersService.deleteUser svc (id request) w = (Resolved false, w1) \/
     usersService.deleteUser svc (id request) w = (Rejected e, w1)).
Proof.
  unfold UsersController.deleteUser, try_catch, bind, throw, ret, errorResponder.
  destruct (usersService.deleteUser svc (id request) w) as [[[|] | e0] w2];
    cbn [negb].
  - split; [split; congruence | discriminate].
  - split; [split; discriminate |].
    intros e Hrun. left. inversion Hrun. auto.
  - split; [split; discriminate |].
    intros e Hrun. right. inversion Hrun. reflexivity.
Qed.


End ToldMore.

(** ** Registration over the store *)

(** [createUser] over the store, in one piece. *)
Lemma createUser_on_store {E} (h : passwords.t E) request s (ent : E) :
  UsersController.createUser service (hasher h) request (s, ent) =
  if negb (Js.truthy (field (body request) "email")) then
    (Resolved (Next (AppError VALIDATION_ERROR (Some "Email is required"))), (s, ent))
  else if negb (Js.truthy (field (body request) "full_name")) then
    (Resolved (Next (AppError VALIDATION_ERROR (Some "Full name is required"))), (s, ent))
  else
    match outage s with
    | Some e => (Resolved (Next e), (s, ent))
    | None =>
        if bool_decide (is_Some (List.find
             (usersRepository.has_email (field (body request) "email")) (users s)))
        then
          (Resolved (Next (AppError EMAIL_ALREADY_TAKEN (Some "Email already exists"))),
           (s, ent))
        else
          match member_length (field (body request) "password") (s, ent) with
          | (Rejected e, _) => (Resolved (Next e), (s, ent))
          | (Resolved len, _) =>
              if Js.lt_number len 8 then
                (Resolved (Next (AppError VALIDATION_ERROR
                   (Some "Password must be at least 8 characters long"))), (s, ent))
              else if negb (Js.strict_eq (field (body request) "password")
                              (field (body request) "confirm_password")) then
                (Resolved (Next (AppError VALIDATION_ERROR
                   (Some "Password and confirm password do not match"))), (s, ent))
              else
                match passwords.hashPassword h (field (body request) "password") ent with
                | (Rejected e, ent') => (Resolved (Next e), (s, ent'))
                | (Resolved hashed, ent') =>
                    (Resolved (Sent 201 (Message "User created successfully")),
                     ({| users := users s ++
                           [User.make (pretty (next_id s)) (field (body request) "email")
                              (field (body request) "full_name") hashed];
                         books := books s;
                         next_id := N.succ (next_id s);
                         outage := outage s |}, ent'))
                end
          end
    end.
Proof.
  unfold UsersController.createUser.
  generalize (field (body request) "email") (field (body request) "full_name")
    (field (body request) "password") (field (body request) "confirm_password").
  intros m n p c. unfold try_catch, bind, throw, ret, errorResponder.
  destruct (negb (Js.truthy m)); [reflexivity |].
  destruct (negb (Js.truthy n)); [reflexivity |].
  cbn [usersService.emailExists service]. unfold on_store, usersServiceModel.emailExists,
    bind, ret, usersRepository.getUserByEmail. cbn [fst snd].
  destruct (outage s) as [err |] eqn:Hout.
  - now rewrite (storage_down _ _ _ Hout).
  - rewrite (storage_up _ _ Hout). cbn [fst snd].
    destruct (bool_decide (is_Some (List.find (usersRepository.has_email m) (users s))));
      [reflexivity |].
    unfold member_length, throw, ret.
    destruct (Js.length_of p) as [len |]; [| reflexivity].
    destruct (Js.lt_number len 8); [reflexivity |].
    destruct (negb (Js.strict_eq p c)); [reflexivity |].
    cbn [passwords.hashPassword hasher usersService.createUser service].
    unfold on_hasher, on_store. cbn [fst snd].
    destruct (passwords.hashPassword h p ent) as [[hashed | e] ent']; [| reflexivity].
    unfold usersServiceModel.createUser, usersRepository.createUser.
    cbn [fst snd]. rewrite (storage_up _ _ Hout). cbn. now rewrite Hout.
Qed.


Lemma find_is_Some {A} (f : A -> bool) (l : list A) x :
  In x l -> f x = true -> is_Some (List.find f l).
Proof.
  intros Hin Hx. destruct (List.find f l) eqn:Hfind; [eauto |].
  apply (find_none _ _ Hfind) in Hin. congruence.
Qed.

(** X11. A registration changes the store only when it answers 201, and
    then by one user appended after the others: the email and the full
    name of the request, and for password the hash that the hash library
    made of the request's password. Every refused registration leaves the
    store as it was. *)
Theorem createUser_store_effect {E} (h : passwords.t E) request s (ent : E)
    reply s' ent' :
  UsersController.createUser service (hasher h) request (s, ent) =
    (Resolved reply, (s', ent')) ->
  match reply with
  | Sent _ _ =>
      exists hashed,
        passwords.hashPassword h (field (body request) "password") ent =
          (Resolved hashed, ent') /\
        users s' = (users s ++
          [User.make (pretty (next_id s)) (field (body request) "email")
             (field (body request) "full_name") hashed])%list /\
        books s' = books s /\ outage s' = outage s
  | Next _ => s' = s
  end.
Proof.
  rewrite createUser_on_store. intros Hrun.
  repeat case_match; simplify_eq; try reflexivity.
  eexists. split; [reflexivity | split; [reflexivity | split; [reflexivity |]]].
  cbn [outage]. congruence.
Qed.


(** X13. Once a registration with a string email has been answered 201, a
    further registration with the same email and a full name is answered
    with EMAIL_ALREADY_TAKEN, whatever its password fields, and leaves the
    store as it is. *)
Theorem createUser_twice_refused {E} (h : passwords.t E) first second s (ent : E)
    e status json s' ent' :
  field (body first) "email" = Js.Str e ->
  UsersController.createUser service (hasher h) first (s, ent) =
    (Resolved (Sent status json), (s', ent')) ->
  field (body second) "email" = Js.Str e ->
  Js.truthy (field (body second) "full_name") = true ->
  UsersController.createUser service (hasher h) second (s', ent') =
    (Resolved (Next (AppError EMAIL_ALREADY_TAKEN (Some "Email already exists"))),
     (s', ent')).
Proof.
  intros Hfirst Hrun Hsecond Hname.
  assert (Hpresent : Js.truthy (Js.Str e) = true /\ outage s = None).
  { rewrite createUser_on_store, Hfirst in Hrun.
    destruct (Js.truthy (Js.Str e)); [| discriminate].
    destruct (negb (Js.truthy (field (body first) "full_name"))); [discriminate |].
    destruct (outage s); [discriminate | auto]. }
  destruct Hpresent as [He Hup].
  assert (Hafter : outage s' = None /\
                   exists hashed, users s' = (users s ++
                     [User.make (pretty (next_id s)) (Js.Str e)
                        (field (body first) "full_name") hashed])%list).
  { rewrite createUser_on_store, Hfirst in Hrun.
    repeat case_match; simplify_eq. cbn [users outage]. eauto. }
  destruct Hafter as (Hout & hashed & Husers).
  rewrite createUser_on_store, Hsecond, He, Hname, Hout. cbn [negb].
  rewrite bool_decide_eq_true_2; [reflexivity |].
  rewrite Husers. eapply find_is_Some.
  - apply in_or_app. right. left. reflexivity.
  - apply same_value_string_refl.
Qed.

(** ** Update over the store *)




(** ** Books over the store *)


(** X16. [createBook] refuses a missing or empty title with a
    VALIDATION_ERROR and creates nothing. With a title, while the store
    answers, it replies 200 with the new book, which carries that title and
    stands last in the collection, the books before it and the users being
    as they were; during an outage the failure goes to [next] and nothing
    is created. *)
Theorem createBook_outcome request s :
  (Js.truthy (field (body request) "title") = false ->
   BooksController.createBook request s =
   (Resolved (Next (AppError VALIDATION_ERROR (Some "Title is required"))), s)) /\
  (Js.truthy (field (body request) "title") = true ->
   outage s = None ->
   exists book s',
     BooksController.createBook request s = (Resolved (Sent 200 (BookJson book)), s') /\
     Book.title book = field (body request) "title" /\
     books s' = (books s ++ [book])%list /\
     users s' = users s) /\
  (forall e,
   Js.truthy (field (body request) "title") = true ->
   outage s = Some e ->
   BooksController.createBook request s = (Resolved (Next e), s)).
Proof.
  unfold BooksController.createBook, try_catch, bind, booksService.create,
    booksRepository.create, Books.create.
  split; [| split].
  - intros Htitle. now rewrite Htitle.
  - intros Htitle Hup. rewrite Htitle. cbn [negb].
    rewrite (storage_up _ _ Hup). cbn [fst snd ret].
    eexists _, _. split; [reflexivity |]. cbn. auto.
  - intros e Htitle Hdown. rewrite Htitle. cbn [negb].
    now rewrite (storage_down _ _ _ Hdown).
Qed.

(** X17. A book that [createBook] has just created is what [getBooks]
    lists at the offset that was the size of the collection before. *)
Theorem createBook_then_listed create listing s :
  Js.truthy (field (body create) "title") = true ->
  outage s = None ->
  query listing !! "offset" = Some (pretty (N.of_nat (length (books s)))) ->
  query listing !! "limit" = None ->
  exists book s',
    BooksController.createBook create s = (Resolved (Sent 200 (BookJson book)), s') /\
    BooksController.getBooks listing s' = (Resolved (Sent 200 (BooksJson [book])), s').
Proof.
  intros Htitle Hup Ho Hl.
  unfold BooksController.createBook, try_catch, bind, booksService.create,
    booksRepository.create, Books.create.
  rewrite Htitle. cbn [negb]. rewrite (storage_up _ _ Hup). cbn [fst snd ret].
  eexists _, _. split; [reflexivity |].
  unfold BooksController.getBooks. rewrite Ho, Hl.
  cbn [Js.param_text]. rewrite parseInt_pretty.
  change (Js.or_default (Js.parseInt "undefined") 10) with 10.
  unfold try_catch, bind, booksService.getBooks.
  rewrite getBooks_on_store by exact Hup. cbn [books ret]. unfold page.
  assert (Hskip : Z.to_nat (Js.or_default (Some (Z.of_N (N.of_nat (length (books s))))) 0)
                  = length (books s)).
  { unfold Js.or_default.
    destruct (Z.eqb_spec (Z.of_N (N.of_nat (length (books s)))) 0); lia. }
  rewrite Hskip, drop_app_length. reflexivity.
Qed.

(** ** The further statements at sample requests *)


Lemma lookup_leaves_store (m : Js.Val) (v : Store * nat) :
  fst v = demo_store ->
  fst (snd (usersService.getUserByEmail service m v)) = demo_store.
Proof.
  destruct v as [s ent]. cbn. intros ->. reflexivity.
Qed.

Lemma matcher_leaves_store (p : Js.Val) (hashed : string) (v : Store * nat) :
  fst v = demo_store ->
  fst (snd (passwords.passwordMatched (hasher demo_hasher) p hashed v)) = demo_store.
Proof.
  destruct v as [s ent]. cbn. intros ->. unfold on_hasher. cbn.
  now destruct p, hashed.
Qed.

Lemma createUser_sent_only_if_witness :
  fst (UsersController.createUser service (hasher demo_hasher) register_carol
         (demo_store, 57%nat)) =
  Resolved (Sent 201 (Message "User created successfully")) /\
  Js.strict_eq (field (body register_carol) "password")
    (field (body register_carol) "confirm_password") = true.
Proof.
  split; [vm_compute; reflexivity |].
  apply (createUser_sent_only_if service (hasher demo_hasher) register_carol
           (demo_store, 57%nat) 201 (Message "User created successfully")
           (snd (UsersController.createUser service (hasher demo_hasher)
                   register_carol (demo_store, 57%nat)))).
  vm_compute; reflexivity.
Defined.

Lemma loginUser_sent_only_if_witness :
  fst (UsersController.loginUser service (hasher demo_hasher)
         (post [("email", Js.Str "alice@example.com");
                ("password", Js.Str "correct horse")]) (demo_store, 57%nat)) =
  Resolved (Sent 200 (Message "Login successful")) /\
  exists user w1,
    usersService.getUserByEmail service (Js.Str "alice@example.com")
      (demo_store, 57%nat) = (Resolved (Some user), w1) /\
    passwords.passwordMatched (hasher demo_hasher) (Js.Str "correct horse")
      (User.password user) w1 = (Resolved true, (demo_store, 57%nat)).
Proof.
  split; [vm_compute; reflexivity |].
  apply (loginUser_sent_only_if service (hasher demo_hasher)
           (post [("email", Js.Str "alice@example.com");
                  ("password", Js.Str "correct horse")])
           (demo_store, 57%nat) 200 (Message "Login successful")
           (demo_store, 57%nat)).
  vm_compute; reflexivity.
Defined.

Lemma loginUser_next_only_classified_witness :
  classified (AppError UNPROCESSABLE_ENTITY (Some "Invalid email or password")) = true /\
  (AppError UNPROCESSABLE_ENTITY (Some "Invalid email or password") =
     AppError VALIDATION_ERROR (Some "Email and password are required") /\
   (Js.truthy (field (body login_nobody) "email") = false \/
    Js.truthy (field (body login_nobody) "password") = false) /\
   (demo_store, 57%nat) = (demo_store, 57%nat) \/
   AppError UNPROCESSABLE_ENTITY (Some "Invalid email or password") =
     AppError UNPROCESSABLE_ENTITY (Some "Invalid email or password") /\
   Js.truthy (field (body login_nobody) "email") = true /\
   Js.truthy (field (body login_nobody) "password") = true).
Proof.
  split; [reflexivity |].
  apply (loginUser_next_only_classified service (hasher demo_hasher) login_nobody
           (demo_store, 57%nat)).
  vm_compute; reflexivity.
Defined.

Lemma loginUser_frame_witness :
  fst (snd (UsersController.loginUser service (hasher demo_hasher) login_alice_wrong
              (demo_store, 57%nat))) = demo_store.
Proof.
  apply (loginUser_frame service (hasher demo_hasher)
           (fun v => fst v = demo_store) login_alice_wrong (demo_store, 57%nat)).
  - exact lookup_leaves_store.
  - exact matcher_leaves_store.
  - reflexivity.
Defined.



Lemma updateUser_sent_only_if_witness :
  fst (UsersController.updateUser (W := Store * nat) service rename_bob
         (demo_store, 57%nat)) =
  Resolved (Sent 200 (Message "User updated successfully")) /\
  Js.truthy (field (body rename_bob) "full_name") = true.
Proof.
  split; [vm_compute; reflexivity |].
  apply (updateUser_sent_only_if service rename_bob (demo_store, 57%nat) 200
           (Message "User updated successfully")
           (snd (UsersController.updateUser (W := Store * nat) service rename_bob
                   (demo_store, 57%nat)))).
  vm_compute; reflexivity.
Defined.

Lemma getUser_reply_witness :
  usersService.getUser service (param (params (put "1" [])) "id") (demo_store, 57%nat) =
    (Resolved (Some bob), (demo_store, 57%nat)) /\
  UsersController.getUser (W := Store * nat) service (put "1" []) (demo_store, 57%nat) =
  (Resolved (Sent 200 (UserJson bob)), (demo_store, 57%nat)).
Proof.
  split; [vm_compute; reflexivity |].
  apply (proj1 (getUser_reply service (put "1" []) (demo_store, 57%nat)
                  (demo_store, 57%nat)) bob).
  vm_compute; reflexivity.
Defined.

Lemma deleteUser_reply_witness :
  usersService.deleteUser service (param (params (put "9" [])) "id")
    (demo_store, 57%nat) = (Resolved false, (demo_store, 57%nat)) /\
  UsersController.deleteUser (W := Store * nat) service (put "9" [])
    (demo_store, 57%nat) =
  (Resolved (Next (AppError UNPROCESSABLE_ENTITY (Some "Failed to delete user"))),
   (demo_store, 57%nat)).
Proof.
  split; [vm_compute; reflexivity |].
  destruct (proj2 (deleteUser_reply service (put "9" []) (demo_store, 57%nat)
                     (demo_store, 57%nat))
              (AppError UNPROCESSABLE_ENTITY (Some "Failed to delete user"))
              ltac:(vm_compute; reflexivity)) as [[_ Hflag] | Hrejected].
  - vm_compute; reflexivity.
  - vm_compute in Hrejected. discriminate Hrejected.
Defined.


Lemma createUser_store_effect_witness :
  exists hashed,
    passwords.hashPassword demo_hasher (field (body register_carol) "password") 57%nat =
      (Resolved hashed, 58%nat) /\
    users (fst (snd (UsersController.createUser service (hasher demo_hasher)
                       register_carol (demo_store, 57%nat)))) =
    (users demo_store ++
       [User.make (pretty (next_id demo_store)) (field (body register_carol) "email")
          (field (body register_carol) "full_name") hashed])%list /\
    books (fst (snd (UsersController.createUser service (hasher demo_hasher)
                       register_carol (demo_store, 57%nat)))) = books demo_store /\
    outage (fst (snd (UsersController.createUser service (hasher demo_hasher)
                        register_carol (demo_store, 57%nat)))) = outage demo_store.
Proof.
  apply (createUser_store_effect demo_hasher register_carol demo_store 57%nat
           (Sent 201 (Message "User created successfully"))
           (fst (snd (UsersController.createUser service (hasher demo_hasher)
                        register_carol (demo_store, 57%nat)))) 58%nat).
  vm_compute; reflexivity.
Defined.


Lemma createUser_twice_refused_witness :
  UsersController.createUser service (hasher demo_hasher) register_mismatch
    (snd (UsersController.createUser service (hasher demo_hasher) register_carol
            (demo_store, 57%nat))) =
  (Resolved (Next (AppError EMAIL_ALREADY_TAKEN (Some "Email already exists"))),
   snd (UsersController.createUser service (hasher demo_hasher) register_carol
          (demo_store, 57%nat))).
Proof.
  apply (createUser_twice_refused demo_hasher register_carol register_mismatch
           demo_store 57%nat "carol@example.com" 201
           (Message "User created successfully")
           (fst (snd (UsersController.createUser service (hasher demo_hasher)
                        register_carol (demo_store, 57%nat))))
           (snd (snd (UsersController.createUser service (hasher demo_hasher)
                        register_carol (demo_store, 57%nat)))));
    vm_compute; reflexivity.
Defined.



Lemma createBook_outcome_witness :
  BooksController.createBook (post [("title", Js.Str EmptyString)]) demo_store =
  (Resolved (Next (AppError VALIDATION_ERROR (Some "Title is required"))), demo_store) /\
  exists book s',
    BooksController.createBook (post [("title", Js.Str "M")]) demo_store =
      (Resolved (Sent 200 (BookJson book)), s') /\
    Book.title book = field (body (post [("title", Js.Str "M")])) "title" /\
    books s' = (books demo_store ++ [book])%list /\
    users s' = users demo_store.
Proof.
  split.
  - apply (proj1 (createBook_outcome (post [("title", Js.Str EmptyString)]) demo_store)).
    vm_compute; reflexivity.
  - apply (proj1 (proj2 (createBook_outcome (post [("title", Js.Str "M")]) demo_store)));
      vm_compute; reflexivity.
Defined.

Lemma createBook_then_listed_witness :
  exists book s',
    BooksController.createBook (post [("title", Js.Str "M")]) demo_store =
      (Resolved (Sent 200 (BookJson book)), s') /\
    BooksController.getBooks (get [("offset", "12")]) s' =
      (Resolved (Sent 200 (BooksJson [book])), s').
Proof.
  apply (createBook_then_listed (post [("title", Js.Str "M")])
           (get [("offset", "12")]) demo_store); vm_compute; reflexivity.
Defined.
